(** * Intel FPGA Crypto Services driver (drivers/crypto/intel_fcs.c)

    A shallow embedding of the driver's callbacks, of its synchronous
    request primitive [fcs_request_service] and of [fcs_ioctl], followed by
    the properties of the service request broker that hold (or fail) on it.

    The driver talks to three collaborators that are not part of the file:
    the user process (copy_from_user / copy_to_user), the kernel allocators
    and the Stratix10 service layer (allocate / free / send / notification).
    They are modelled by an environment [env] that fixes, for one ioctl
    call, what each of those calls answers, and by a trace of [event]s that
    records every call the driver makes on them. *)

From Stdlib Require Import ZArith List Bool Lia.
Import ListNotations.
Local Open Scope Z_scope.

(** ** Machine integers *)

(** [unsigned int] values are kept as [Z] in [0, 2^32); storing a negative
    errno in an [unsigned int] wraps. *)
Definition u32 (x : Z) : Z := x mod 2 ^ 32.

(** [BIT(n)] of linux/bits.h: [1UL << n]. *)
Definition BIT (n : Z) : Z := Z.shiftl 1 n.

(** errno values (uapi/asm-generic/errno-base.h and errno.h). *)
Definition ENOMEM : Z := 12.
Definition EFAULT : Z := 14.
Definition EINVAL : Z := 22.
Definition ETIMEDOUT : Z := 110.

(** ** Constants of intel_fcs.c *)

Definition RANDOM_NUMBER_SIZE : Z := 32.
Definition FILE_NAME_SIZE : Z := 32.
Definition PS_BUF_SIZE : Z := 64.
Definition SHA384_SIZE : Z := 48.
Definition INVALID_STATUS : Z := 0xffffffff.
Definition INVALID_CID : Z := 0xffffffff.

Definition DEC_MIN_SZ : Z := 72.
Definition DEC_MAX_SZ : Z := 32712.
Definition ENC_MIN_SZ : Z := 120.
Definition ENC_MAX_SZ : Z := 32760.

Definition SUBKEY_CMD_MAX_SZ : Z := 4092.
Definition SUBKEY_RSP_MAX_SZ : Z := 820.
Definition MEASUREMENT_CMD_MAX_SZ : Z := 4092.
Definition MEASUREMENT_RSP_MAX_SZ : Z := 4092.
Definition CERTIFICATE_RSP_MAX_SZ : Z := 4096.

Definition SIGMA_SESSION_ID_ONE : Z := 0x1.
Definition SIGMA_UNKNOWN_SESSION : Z := 0xffffffff.

(** ** What the included headers define

    stratix10-svc-client.h and intel_fcs-ioctl.h are not part of the
    sources.  The numbers the driver takes from them are parameters of the
    development: the bit positions of the service status words, the two
    timeouts (in jiffies) and the sizes of the two one-word header
    structures. *)
Class svc_header : Type := {
  SVC_STATUS_OK : Z;
  SVC_STATUS_COMPLETED : Z;
  SVC_STATUS_BUSY : Z;
  SVC_STATUS_ERROR : Z;
  SVC_STATUS_INVALID_PARAM : Z;
  FCS_REQUEST_TIMEOUT : Z;
  FCS_COMPLETED_TIMEOUT : Z;
  sizeof_cert_test_word : Z;
  sizeof_attestation_resv_word : Z
}.

(** The status positions are distinct bits of a 32-bit word. *)
Definition svc_header_ok (h : svc_header) : bool :=
  forallb (fun n => (0 <=? n) && (n <? 32))
    [SVC_STATUS_OK; SVC_STATUS_COMPLETED; SVC_STATUS_BUSY; SVC_STATUS_ERROR;
     SVC_STATUS_INVALID_PARAM]
  && negb (SVC_STATUS_OK =? SVC_STATUS_COMPLETED)
  && negb (SVC_STATUS_OK =? SVC_STATUS_BUSY)
  && negb (SVC_STATUS_OK =? SVC_STATUS_ERROR)
  && negb (SVC_STATUS_OK =? SVC_STATUS_INVALID_PARAM)
  && negb (SVC_STATUS_COMPLETED =? SVC_STATUS_BUSY)
  && negb (SVC_STATUS_COMPLETED =? SVC_STATUS_ERROR)
  && negb (SVC_STATUS_COMPLETED =? SVC_STATUS_INVALID_PARAM)
  && negb (SVC_STATUS_BUSY =? SVC_STATUS_ERROR)
  && negb (SVC_STATUS_BUSY =? SVC_STATUS_INVALID_PARAM)
  && negb (SVC_STATUS_ERROR =? SVC_STATUS_INVALID_PARAM).

(** The values of the mainline headers, used to run the model on concrete
    requests. *)
Definition stratix10_header : svc_header := {|
  SVC_STATUS_OK := 0;
  SVC_STATUS_COMPLETED := 3;
  SVC_STATUS_BUSY := 4;
  SVC_STATUS_ERROR := 5;
  SVC_STATUS_INVALID_PARAM := 7;
  FCS_REQUEST_TIMEOUT := 2000;
  FCS_COMPLETED_TIMEOUT := 30000;
  sizeof_cert_test_word := 4;
  sizeof_attestation_resv_word := 4
|}.

(** ** Pointers *)

(** A kernel pointer is NULL or gives the 32-bit words stored behind it. *)
Definition kptr : Type := option (list Z).

(** Reading the [unsigned int] behind a pointer; dereferencing NULL has no
    value. *)
Definition load_u32 (p : kptr) : option Z :=
  match p with
  | Some (w :: _) => Some w
  | _ => None
  end.

(** Reading the [n] first [int]s behind a pointer. *)
Definition load_words (p : kptr) (n : nat) : option (list Z) :=
  match p with
  | Some ws => if (n <=? length ws)%nat then Some (firstn n ws) else None
  | None => None
  end.

(** A shared buffer handed out by the service layer is known by the rank of
    the allocation that produced it; [None] is the NULL pointer. *)
Definition buffer : Type := option nat.

(** ** struct stratix10_svc_cb_data *)
Record stratix10_svc_cb_data : Type := {
  cb_status : Z;
  kaddr1 : kptr;
  kaddr2 : kptr;
  kaddr3 : kptr
}.

(** ** struct intel_fcs_priv *)

Inductive fcs_callback : Type :=
| cb_fcs_data
| cb_fcs_vab
| cb_fcs_chipid
| cb_fcs_attestation.

Record intel_fcs_priv : Type := mk_priv {
  receive_cb : option fcs_callback;   (* client.receive_cb *)
  completion : nat;                   (* completion.done *)
  lock : bool;                        (* the mutex is held *)
  status : Z;
  kbuf : kptr;
  size : Z;
  cid_low : Z;
  cid_high : Z
}.

Definition set_receive_cb (v : option fcs_callback) (p : intel_fcs_priv) :=
  mk_priv v (completion p) (lock p) (status p) (kbuf p) (size p) (cid_low p) (cid_high p).
Definition set_completion (v : nat) (p : intel_fcs_priv) :=
  mk_priv (receive_cb p) v (lock p) (status p) (kbuf p) (size p) (cid_low p) (cid_high p).
Definition set_lock (v : bool) (p : intel_fcs_priv) :=
  mk_priv (receive_cb p) (completion p) v (status p) (kbuf p) (size p) (cid_low p) (cid_high p).
Definition set_status (v : Z) (p : intel_fcs_priv) :=
  mk_priv (receive_cb p) (completion p) (lock p) v (kbuf p) (size p) (cid_low p) (cid_high p).
Definition set_kbuf (v : kptr) (p : intel_fcs_priv) :=
  mk_priv (receive_cb p) (completion p) (lock p) (status p) v (size p) (cid_low p) (cid_high p).
Definition set_size (v : Z) (p : intel_fcs_priv) :=
  mk_priv (receive_cb p) (completion p) (lock p) (status p) (kbuf p) v (cid_low p) (cid_high p).
Definition set_cid_low (v : Z) (p : intel_fcs_priv) :=
  mk_priv (receive_cb p) (completion p) (lock p) (status p) (kbuf p) (size p) v (cid_high p).
Definition set_cid_high (v : Z) (p : intel_fcs_priv) :=
  mk_priv (receive_cb p) (completion p) (lock p) (status p) (kbuf p) (size p) (cid_low p) v.

(** [complete(&priv->completion)] *)
Definition complete (p : intel_fcs_priv) : intel_fcs_priv :=
  set_completion (S (completion p)) p.

(** The state [fcs_driver_probe] leaves behind. *)
Definition probed_priv : intel_fcs_priv :=
  mk_priv None 0 false INVALID_STATUS None 0 INVALID_CID INVALID_CID.

(** ** The four callbacks

    A callback runs [None] when it dereferences a NULL pointer. *)

Definition opt_bind {A B : Type} (o : option A) (k : A -> option B) : option B :=
  match o with
  | Some a => k a
  | None => None
  end.

Section Callbacks.
Context {hdr : svc_header}.

Definition fcs_data_callback (priv : intel_fcs_priv)
    (data : stratix10_svc_cb_data) : option intel_fcs_priv :=
  opt_bind
    (if (cb_status data =? BIT SVC_STATUS_OK)
        || (cb_status data =? BIT SVC_STATUS_COMPLETED) then
       opt_bind (load_u32 (kaddr3 data)) (fun sz =>
       Some (set_size sz (set_kbuf (kaddr2 data) (set_status 0 priv))))
     else if cb_status data =? BIT SVC_STATUS_ERROR then
       opt_bind (load_u32 (kaddr1 data)) (fun err =>
       opt_bind (match kaddr3 data with
                 | Some _ => load_u32 (kaddr3 data)
                 | None => Some 0
                 end) (fun sz =>
       Some (set_size sz (set_kbuf (kaddr2 data) (set_status err priv)))))
     else
       Some (set_size 0 (set_kbuf None (set_status (u32 (- EINVAL)) priv))))
    (fun priv => Some (complete priv)).

Definition fcs_vab_callback (priv : intel_fcs_priv)
    (data : stratix10_svc_cb_data) : option intel_fcs_priv :=
  opt_bind
    (if cb_status data =? BIT SVC_STATUS_ERROR then
       opt_bind (load_u32 (kaddr1 data)) (fun err =>
       Some (set_status err priv))
     else if cb_status data =? BIT SVC_STATUS_BUSY then
       Some (set_status (u32 (- ETIMEDOUT)) priv)
     else if cb_status data =? BIT SVC_STATUS_INVALID_PARAM then
       Some (set_status (u32 (- EINVAL)) priv)
     else if cb_status data =? BIT SVC_STATUS_OK then
       Some (set_status 0 priv)
     else
       Some (set_status (u32 (- EINVAL)) priv))
    (fun priv => Some (complete priv)).

Definition fcs_chipid_callback (priv : intel_fcs_priv)
    (data : stratix10_svc_cb_data) : option intel_fcs_priv :=
  let priv := set_status (cb_status data) priv in
  opt_bind
    (if cb_status data =? BIT SVC_STATUS_OK then
       opt_bind (load_u32 (kaddr2 data)) (fun lo =>
       opt_bind (load_u32 (kaddr3 data)) (fun hi =>
       Some (set_cid_high hi (set_cid_low lo (set_status 0 priv)))))
     else if cb_status data =? BIT SVC_STATUS_ERROR then
       opt_bind (load_u32 (kaddr1 data)) (fun err =>
       Some (set_status err priv))
     else
       Some priv)
    (fun priv => Some (complete priv)).

Definition fcs_attestation_callback (priv : intel_fcs_priv)
    (data : stratix10_svc_cb_data) : option intel_fcs_priv :=
  let priv := set_status (cb_status data) priv in
  opt_bind
    (if cb_status data =? BIT SVC_STATUS_OK then
       opt_bind (load_u32 (kaddr3 data)) (fun sz =>
       Some (set_size sz (set_kbuf (kaddr2 data) (set_status 0 priv))))
     else if cb_status data =? BIT SVC_STATUS_ERROR then
       opt_bind (load_u32 (kaddr1 data)) (fun err =>
       Some (set_status err priv))
     else
       Some priv)
    (fun priv => Some (complete priv)).

(** Calling through [client.receive_cb]. *)
Definition call_receive_cb (cb : fcs_callback) :
    intel_fcs_priv -> stratix10_svc_cb_data -> option intel_fcs_priv :=
  match cb with
  | cb_fcs_data => fcs_data_callback
  | cb_fcs_vab => fcs_vab_callback
  | cb_fcs_chipid => fcs_chipid_callback
  | cb_fcs_attestation => fcs_attestation_callback
  end.

End Callbacks.

(** ** struct stratix10_svc_client_msg *)

(** The command codes the driver puts in a message ([COMMAND_NOOP] is the
    zero of the enumeration, what a freshly zeroed message holds). *)
Inductive stratix10_svc_command_code : Type :=
| COMMAND_NOOP
| COMMAND_POLL_SERVICE_STATUS
| COMMAND_FCS_REQUEST_SERVICE
| COMMAND_FCS_SEND_CERTIFICATE
| COMMAND_FCS_GET_PROVISION_DATA
| COMMAND_FCS_COUNTER_SET_PREAUTHORIZED
| COMMAND_FCS_DATA_ENCRYPTION
| COMMAND_FCS_DATA_DECRYPTION
| COMMAND_FCS_RANDOM_NUMBER_GEN
| COMMAND_FCS_PSGSIGMA_TEARDOWN
| COMMAND_FCS_GET_CHIP_ID
| COMMAND_FCS_ATTESTATION_SUBKEY
| COMMAND_FCS_ATTESTATION_MEASUREMENTS
| COMMAND_FCS_ATTESTATION_CERTIFICATE
| COMMAND_FCS_ATTESTATION_CERTIFICATE_RELOAD
| COMMAND_FCS_GET_ROM_PATCH_SHA384.

Definition command_eqb (a b : stratix10_svc_command_code) : bool :=
  match a, b with
  | COMMAND_NOOP, COMMAND_NOOP
  | COMMAND_POLL_SERVICE_STATUS, COMMAND_POLL_SERVICE_STATUS
  | COMMAND_FCS_REQUEST_SERVICE, COMMAND_FCS_REQUEST_SERVICE
  | COMMAND_FCS_SEND_CERTIFICATE, COMMAND_FCS_SEND_CERTIFICATE
  | COMMAND_FCS_GET_PROVISION_DATA, COMMAND_FCS_GET_PROVISION_DATA
  | COMMAND_FCS_COUNTER_SET_PREAUTHORIZED, COMMAND_FCS_COUNTER_SET_PREAUTHORIZED
  | COMMAND_FCS_DATA_ENCRYPTION, COMMAND_FCS_DATA_ENCRYPTION
  | COMMAND_FCS_DATA_DECRYPTION, COMMAND_FCS_DATA_DECRYPTION
  | COMMAND_FCS_RANDOM_NUMBER_GEN, COMMAND_FCS_RANDOM_NUMBER_GEN
  | COMMAND_FCS_PSGSIGMA_TEARDOWN, COMMAND_FCS_PSGSIGMA_TEARDOWN
  | COMMAND_FCS_GET_CHIP_ID, COMMAND_FCS_GET_CHIP_ID
  | COMMAND_FCS_ATTESTATION_SUBKEY, COMMAND_FCS_ATTESTATION_SUBKEY
  | COMMAND_FCS_ATTESTATION_MEASUREMENTS, COMMAND_FCS_ATTESTATION_MEASUREMENTS
  | COMMAND_FCS_ATTESTATION_CERTIFICATE, COMMAND_FCS_ATTESTATION_CERTIFICATE
  | COMMAND_FCS_ATTESTATION_CERTIFICATE_RELOAD,
    COMMAND_FCS_ATTESTATION_CERTIFICATE_RELOAD
  | COMMAND_FCS_GET_ROM_PATCH_SHA384, COMMAND_FCS_GET_ROM_PATCH_SHA384 => true
  | _, _ => false
  end.

Record stratix10_svc_client_msg : Type := mk_msg {
  payload : buffer;
  payload_length : Z;
  payload_output : buffer;
  payload_length_output : Z;
  command : stratix10_svc_command_code;
  arg0 : Z;
  arg1 : Z;
  arg2 : Z
}.

(** What [devm_kzalloc] returns: every field zero. *)
Definition zeroed_msg : stratix10_svc_client_msg :=
  mk_msg None 0 None 0 COMMAND_NOOP 0 0 0.

Definition set_payload (v : buffer) (m : stratix10_svc_client_msg) :=
  mk_msg v (payload_length m) (payload_output m) (payload_length_output m)
         (command m) (arg0 m) (arg1 m) (arg2 m).
Definition set_payload_length (v : Z) (m : stratix10_svc_client_msg) :=
  mk_msg (payload m) v (payload_output m) (payload_length_output m)
         (command m) (arg0 m) (arg1 m) (arg2 m).
Definition set_payload_output (v : buffer) (m : stratix10_svc_client_msg) :=
  mk_msg (payload m) (payload_length m) v (payload_length_output m)
         (command m) (arg0 m) (arg1 m) (arg2 m).
Definition set_payload_length_output (v : Z) (m : stratix10_svc_client_msg) :=
  mk_msg (payload m) (payload_length m) (payload_output m) v
         (command m) (arg0 m) (arg1 m) (arg2 m).
Definition set_command (v : stratix10_svc_command_code)
    (m : stratix10_svc_client_msg) :=
  mk_msg (payload m) (payload_length m) (payload_output m)
         (payload_length_output m) v (arg0 m) (arg1 m) (arg2 m).
Definition set_arg0 (v : Z) (m : stratix10_svc_client_msg) :=
  mk_msg (payload m) (payload_length m) (payload_output m)
         (payload_length_output m) (command m) v (arg1 m) (arg2 m).
Definition set_arg1 (v : Z) (m : stratix10_svc_client_msg) :=
  mk_msg (payload m) (payload_length m) (payload_output m)
         (payload_length_output m) (command m) (arg0 m) v (arg2 m).
Definition set_arg2 (v : Z) (m : stratix10_svc_client_msg) :=
  mk_msg (payload m) (payload_length m) (payload_output m)
         (payload_length_output m) (command m) (arg0 m) (arg1 m) v.

(** ** struct intel_fcs_dev_ioctl

    The structure is a union [com_paras] of per-command parameter blocks
    followed by [status]; its declaration is in intel_fcs-ioctl.h.  It is
    modelled as a store with one cell per member path the driver names.
    [d_encryption] and [d_decryption] are the same cells (the driver
    validates a decryption request through [d_encryption] and sends it
    through [d_decryption]).  Cells hold 32-bit patterns; user pointers are
    addresses, NULL being 0.

    The blocks of the union share their memory, and the header that fixes
    their layout is not part of the source under study: the store does not
    say which cell of one block a write to another block changes.  A cell
    of the store therefore stands for the member only as long as the case
    has written no member of another block; the statements below read,
    from a structure the driver has written, [status] (which lies outside
    the union) and members of the block the case writes, and nothing
    else. *)
Inductive field : Type :=
| f_status
| f_s_request_size
| f_c_request_c_status
| f_i_request_counter_type
| f_i_request_counter_value
| f_i_request_test_word
| f_rn_gen_rndm (i : nat)
| f_gp_data_addr
| f_gp_data_size
| f_d_src_size
| f_d_dst
| f_d_dst_size
| f_tdown_sid
| f_c_id_chip_id_low
| f_c_id_chip_id_high
| f_subkey_cmd_data_sz
| f_subkey_rsp_data
| f_subkey_rsp_data_sz
| f_measurement_cmd_data_sz
| f_measurement_rsp_data
| f_measurement_rsp_data_sz
| f_certificate_c_request
| f_certificate_rsp_data
| f_certificate_rsp_data_sz
| f_c_reload_c_request
| f_sha384_checksum (i : nat).

Definition field_eqb (a b : field) : bool :=
  match a, b with
  | f_status, f_status => true
  | f_s_request_size, f_s_request_size => true
  | f_c_request_c_status, f_c_request_c_status => true
  | f_i_request_counter_type, f_i_request_counter_type => true
  | f_i_request_counter_value, f_i_request_counter_value => true
  | f_i_request_test_word, f_i_request_test_word => true
  | f_gp_data_addr, f_gp_data_addr => true
  | f_gp_data_size, f_gp_data_size => true
  | f_d_src_size, f_d_src_size => true
  | f_d_dst, f_d_dst => true
  | f_d_dst_size, f_d_dst_size => true
  | f_tdown_sid, f_tdown_sid => true
  | f_c_id_chip_id_low, f_c_id_chip_id_low => true
  | f_c_id_chip_id_high, f_c_id_chip_id_high => true
  | f_subkey_cmd_data_sz, f_subkey_cmd_data_sz => true
  | f_subkey_rsp_data, f_subkey_rsp_data => true
  | f_subkey_rsp_data_sz, f_subkey_rsp_data_sz => true
  | f_measurement_cmd_data_sz, f_measurement_cmd_data_sz => true
  | f_measurement_rsp_data, f_measurement_rsp_data => true
  | f_measurement_rsp_data_sz, f_measurement_rsp_data_sz => true
  | f_certificate_c_request, f_certificate_c_request => true
  | f_certificate_rsp_data, f_certificate_rsp_data => true
  | f_certificate_rsp_data_sz, f_certificate_rsp_data_sz => true
  | f_c_reload_c_request, f_c_reload_c_request => true
  | f_rn_gen_rndm i, f_rn_gen_rndm j => Nat.eqb i j
  | f_sha384_checksum i, f_sha384_checksum j => Nat.eqb i j
  | _, _ => false
  end.

Definition intel_fcs_dev_ioctl : Type := field -> Z.

(** [data->f = v] *)
Definition set (f : field) (v : Z) (data : intel_fcs_dev_ioctl) :
    intel_fcs_dev_ioctl :=
  fun g => if field_eqb g f then v else data g.

(** [for (i = 0; i < n; i++) data->f[i] = ws[i]], [i] counting from [i0]. *)
Fixpoint set_words (f : nat -> field) (i0 : nat) (ws : list Z)
    (data : intel_fcs_dev_ioctl) : intel_fcs_dev_ioctl :=
  match ws with
  | [] => data
  | w :: ws' => set_words f (S i0) ws' (set (f i0) w data)
  end.

(** ** The ioctl commands

    The numeric [INTEL_FCS_DEV_*] codes are built in intel_fcs-ioctl.h; the
    switch only compares [cmd] with them, so its fourteen case labels are
    constructors and every other number is [INTEL_FCS_DEV_other]. *)
Inductive ioctl_cmd : Type :=
| INTEL_FCS_DEV_VALIDATION_REQUEST
| INTEL_FCS_DEV_SEND_CERTIFICATE
| INTEL_FCS_DEV_COUNTER_SET_PREAUTHORIZED
| INTEL_FCS_DEV_RANDOM_NUMBER_GEN
| INTEL_FCS_DEV_GET_PROVISION_DATA
| INTEL_FCS_DEV_DATA_ENCRYPTION
| INTEL_FCS_DEV_DATA_DECRYPTION
| INTEL_FCS_DEV_PSGSIGMA_TEARDOWN
| INTEL_FCS_DEV_CHIP_ID
| INTEL_FCS_DEV_ATTESTATION_SUBKEY
| INTEL_FCS_DEV_ATTESTATION_MEASUREMENT
| INTEL_FCS_DEV_ATTESTATION_GET_CERTIFICATE
| INTEL_FCS_DEV_ATTESTATION_CERTIFICATE_RELOAD
| INTEL_FCS_DEV_GET_ROM_PATCH_SHA384
| INTEL_FCS_DEV_other (code : Z).

Definition ioctl_cmd_eq_dec (a b : ioctl_cmd) : {a = b} + {a <> b}.
Proof. decide equality; apply Z.eq_dec. Defined.

(** The case labels of the switch. *)
Definition supported_cmds : list ioctl_cmd :=
  [INTEL_FCS_DEV_VALIDATION_REQUEST; INTEL_FCS_DEV_SEND_CERTIFICATE;
   INTEL_FCS_DEV_COUNTER_SET_PREAUTHORIZED; INTEL_FCS_DEV_RANDOM_NUMBER_GEN;
   INTEL_FCS_DEV_GET_PROVISION_DATA; INTEL_FCS_DEV_DATA_ENCRYPTION;
   INTEL_FCS_DEV_DATA_DECRYPTION; INTEL_FCS_DEV_PSGSIGMA_TEARDOWN;
   INTEL_FCS_DEV_CHIP_ID; INTEL_FCS_DEV_ATTESTATION_SUBKEY;
   INTEL_FCS_DEV_ATTESTATION_MEASUREMENT;
   INTEL_FCS_DEV_ATTESTATION_GET_CERTIFICATE;
   INTEL_FCS_DEV_ATTESTATION_CERTIFICATE_RELOAD;
   INTEL_FCS_DEV_GET_ROM_PATCH_SHA384].

(** ** The environment of one ioctl call *)

(** What the service layer does with one message: the value
    [stratix10_svc_send] returns and, when the message was accepted, the
    notification delivered to the client's callback before the wait times
    out ([None]: no notification in time). *)
Record svc_reply : Type := {
  send_ret : Z;
  notification : option stratix10_svc_cb_data
}.

Record env : Type := {
  kzalloc_data : bool;                     (* devm_kzalloc of data succeeds *)
  kzalloc_msg : bool;                      (* devm_kzalloc of msg succeeds *)
  user_arg : option intel_fcs_dev_ioctl;   (* copy_from_user(data, arg) *)
  firmware : option Z;                     (* request_firmware: fw->size *)
  alloc_ok : nat -> bool;                  (* n-th stratix10_svc_allocate_memory *)
  user_payload_ok : bool;                  (* copy_from_user into s_buf *)
  service : nat -> svc_reply;              (* n-th message sent *)
  payload_out_ok : bool;                   (* copy_to_user of a result buffer *)
  copy_back_ok : bool                      (* copy_to_user(arg, data) *)
}.

(** ** Traces *)

Inductive event : Type :=
| EvAlloc (b : nat) (sz : Z)       (* stratix10_svc_allocate_memory gave b *)
| EvAllocFail (sz : Z)             (* ... or failed *)
| EvFree (b : nat)                 (* stratix10_svc_free_memory *)
| EvDone                           (* stratix10_svc_done *)
| EvSend (m : stratix10_svc_client_msg)
                                   (* stratix10_svc_send *)
| EvWait (timeout : Z)             (* wait_for_completion_timeout *)
| EvServiceRet (ret : Z) (st : Z)  (* fcs_request_service returned ret,
                                      leaving priv->status = st *)
| EvCopyOut (dst : Z) (n : Z) (ok : bool)
                                   (* n bytes of result copied to user memory *)
| EvCopyBack (data : intel_fcs_dev_ioctl) (ok : bool)
                                   (* copy_to_user(arg, data) *).

Record world : Type := mk_world {
  w_priv : intel_fcs_priv;
  w_trace : list event;            (* oldest event first *)
  w_allocs : nat;                  (* calls of stratix10_svc_allocate_memory *)
  w_sends : nat;                   (* calls of stratix10_svc_send *)
  w_inflight : option stratix10_svc_cb_data
                                   (* notification the channel will deliver *)
}.

Definition initial_world (p : intel_fcs_priv) : world :=
  mk_world p [] 0 0 None.

(** ** The monad of driver code

    A piece of driver code, run in a world, goes on with a value, makes
    the ioctl return ([Exit]), dereferences NULL ([Oops]) or blocks for ever
    on the mutex ([Hang]). *)
Inductive result (A : Type) : Type :=
| Next (a : A) (w : world)
| Exit (r : Z) (w : world)
| Oops (w : world)
| Hang (w : world).
Arguments Next {A} a w.
Arguments Exit {A} r w.
Arguments Oops {A} w.
Arguments Hang {A} w.

Definition M (A : Type) : Type := world -> result A.

Definition pure {A : Type} (a : A) : M A := fun w => Next a w.

Definition bind {A B : Type} (m : M A) (k : A -> M B) : M B :=
  fun w =>
    match m w with
    | Next a w' => k a w'
    | Exit r w' => Exit r w'
    | Oops w' => Oops w'
    | Hang w' => Hang w'
    end.

(** [return r;] inside [fcs_ioctl] *)
Definition return_ {A : Type} (r : Z) : M A := fun w => Exit r w.

Declare Scope fcs_scope.
Delimit Scope fcs_scope with fcs.
Notation "x <- m ;; k" := (bind m (fun x => k))
  (at level 61, m at next level, right associativity) : fcs_scope.
Notation "m ;; k" := (bind m (fun _ => k))
  (at level 61, right associativity) : fcs_scope.
Notation "' ( x , y ) <- m ;; k" := (bind m (fun xy => let '(x, y) := xy in k))
  (at level 61, m at next level, right associativity) : fcs_scope.
Local Open Scope fcs_scope.

Definition emit (ev : event) : M unit :=
  fun w => Next tt (mk_world (w_priv w) (w_trace w ++ [ev]) (w_allocs w)
                             (w_sends w) (w_inflight w)).

Definition get_priv : M intel_fcs_priv := fun w => Next (w_priv w) w.

Definition put_priv (p : intel_fcs_priv) : M unit :=
  fun w => Next tt (mk_world p (w_trace w) (w_allocs w) (w_sends w)
                             (w_inflight w)).

Definition modify_priv (f : intel_fcs_priv -> intel_fcs_priv) : M unit :=
  p <- get_priv ;; put_priv (f p).

Definition oops {A : Type} : M A := fun w => Oops w.

(** Lifting a read that has no value on NULL. *)
Definition deref {A : Type} (o : option A) : M A :=
  match o with
  | Some a => pure a
  | None => oops
  end.

(** ** The driver *)

Section Driver.
Context {hdr : svc_header}.
Variable e : env.

(** *** The collaborators, as the environment answers *)

Definition devm_kzalloc_data : M bool := pure (kzalloc_data e).
Definition devm_kzalloc_msg : M bool := pure (kzalloc_msg e).

(** [copy_from_user(data, arg, sizeof( *data))]: the structure read, or
    nothing. *)
Definition copy_from_user_arg : M (option intel_fcs_dev_ioctl) :=
  pure (user_arg e).

Definition request_firmware : M (option Z) := pure (firmware e).

(** [copy_from_user] of a payload into a shared buffer. *)
Definition copy_from_user_payload : M bool := pure (user_payload_ok e).

Definition copy_to_user_payload (dst n : Z) : M bool :=
  emit (EvCopyOut dst n (payload_out_ok e)) ;; pure (payload_out_ok e).

Definition copy_to_user_arg (data : intel_fcs_dev_ioctl) : M bool :=
  emit (EvCopyBack data (copy_back_ok e)) ;; pure (copy_back_ok e).

(** [memcpy(dst, priv->kbuf, n)] towards the caller's response area. *)
Definition memcpy_from_kbuf (dst : Z) (src : kptr) (n : Z) : M unit :=
  match src with
  | None => if n =? 0 then emit (EvCopyOut dst n true) else oops
  | Some _ => emit (EvCopyOut dst n true)
  end.

Definition stratix10_svc_allocate_memory (sz : Z) : M buffer :=
  fun w =>
    let n := w_allocs w in
    if alloc_ok e n then
      Next (Some n) (mk_world (w_priv w) (w_trace w ++ [EvAlloc n sz]) (S n)
                              (w_sends w) (w_inflight w))
    else
      Next None (mk_world (w_priv w) (w_trace w ++ [EvAllocFail sz]) (S n)
                          (w_sends w) (w_inflight w)).

Definition stratix10_svc_free_memory (b : buffer) : M unit :=
  match b with
  | Some n => emit (EvFree n)
  | None => pure tt
  end.

Definition stratix10_svc_done : M unit := emit EvDone.

(** The message is accepted when the returned value is 0; its notification
    is then on its way. *)
Definition stratix10_svc_send (msg : stratix10_svc_client_msg) : M Z :=
  fun w =>
    let r := service e (w_sends w) in
    Next (send_ret r)
         (mk_world (w_priv w) (w_trace w ++ [EvSend msg]) (w_allocs w)
                   (S (w_sends w))
                   (if send_ret r =? 0 then notification r else w_inflight w)).

Definition mutex_lock : M unit :=
  fun w =>
    if lock (w_priv w) then Hang w
    else put_priv (set_lock true (w_priv w)) w.

Definition mutex_unlock : M unit := modify_priv (set_lock false).

Definition reinit_completion : M unit := modify_priv (set_completion 0).

(** The wait ends when the service layer has called [client.receive_cb]
    (the callback ends in [complete]); the value is then the time left, at
    least 1.  Without a notification it is 0. *)
Definition wait_for_completion_timeout (timeout : Z) : M Z :=
  emit (EvWait timeout) ;;
  fun w =>
    match w_inflight w with
    | Some d =>
        match receive_cb (w_priv w) with
        | Some cb =>
            match call_receive_cb cb (w_priv w) d with
            | Some p =>
                Next 1 (mk_world (set_completion (Nat.pred (completion p)) p)
                                 (w_trace w) (w_allocs w) (w_sends w) None)
            | None => Oops w
            end
        | None => Oops w
        end
    | None => Next 0 w
    end.

(** *** fcs_request_service

    The last step adds to the trace what the call returned and the status
    it left in [priv]; it stands for no statement of the function. *)
Definition fcs_request_service (msg : stratix10_svc_client_msg)
    (timeout : Z) : M Z :=
  ret <- (mutex_lock ;;
          reinit_completion ;;
          ret <- stratix10_svc_send msg ;;
          if negb (ret =? 0) then
            pure (- EINVAL)
          else
            ret <- wait_for_completion_timeout timeout ;;
            let ret := if ret =? 0 then - ETIMEDOUT else 0 in
            mutex_unlock ;;
            pure ret) ;;
  priv <- get_priv ;;
  emit (EvServiceRet ret (status priv)) ;;
  pure ret.

(** *** fcs_close_services *)
Definition fcs_close_services (sbuf dbuf : buffer) : M unit :=
  (match sbuf with
   | Some _ => stratix10_svc_free_memory sbuf
   | None => pure tt
   end) ;;
  (match dbuf with
   | Some _ => stratix10_svc_free_memory dbuf
   | None => pure tt
   end) ;;
  stratix10_svc_done.

(** [priv->client.receive_cb = cb] *)
Definition register_cb (cb : fcs_callback) : M unit :=
  modify_priv (set_receive_cb (Some cb)).

(** [!ret && !priv->status] *)
Definition succeeded (ret : Z) (priv : intel_fcs_priv) : bool :=
  (ret =? 0) && (status priv =? 0).

(** *** fcs_ioctl, case by case

    Each definition is one case of the switch, in the order of the source;
    [data] and [msg] are the two zeroed structures allocated before the
    switch, and the value produced is [ret] at the [break]. *)

Definition case_VALIDATION_REQUEST (data : intel_fcs_dev_ioctl)
    (msg : stratix10_svc_client_msg) : M Z :=
  arg <- copy_from_user_arg ;;
  match arg with
  | None => return_ (- EFAULT)
  | Some data =>
  fw <- request_firmware ;;
  match fw with
  | None => return_ (- EFAULT)
  | Some fw_size =>
  s_buf <- stratix10_svc_allocate_memory fw_size ;;
  match s_buf with
  | None => return_ (- ENOMEM)
  | Some _ =>
  let msg := set_payload_length fw_size msg in
  let msg := set_command COMMAND_FCS_REQUEST_SERVICE msg in
  let msg := set_payload s_buf msg in
  register_cb cb_fcs_vab ;;
  ret <- fcs_request_service msg FCS_REQUEST_TIMEOUT ;;
  priv <- get_priv ;;
  '(ret, data) <-
    (if succeeded ret priv then
       let msg := set_command COMMAND_POLL_SERVICE_STATUS msg in
       register_cb cb_fcs_data ;;
       ret <- fcs_request_service msg FCS_COMPLETED_TIMEOUT ;;
       priv <- get_priv ;;
       if succeeded ret priv then
         pure (ret, set f_status 0 data)
       else
         pure (ret, set f_status (status priv) data)
     else
       pure (ret, set f_status (status priv) data)) ;;
  ok <- copy_to_user_arg data ;;
  ret <- (if negb ok then
            fcs_close_services s_buf None ;;
            pure (- EFAULT)
          else pure ret) ;;
  fcs_close_services s_buf None ;;
  pure ret
  end end end.

Definition case_SEND_CERTIFICATE (data : intel_fcs_dev_ioctl)
    (msg : stratix10_svc_client_msg) : M Z :=
  arg <- copy_from_user_arg ;;
  match arg with
  | None => return_ (- EFAULT)
  | Some data =>
  let tsz := sizeof_cert_test_word in
  let datasz := data f_s_request_size + tsz in
  s_buf <- stratix10_svc_allocate_memory datasz ;;
  match s_buf with
  | None => return_ (- ENOMEM)
  | Some _ =>
  ps_buf <- stratix10_svc_allocate_memory PS_BUF_SIZE ;;
  match ps_buf with
  | None =>
      stratix10_svc_free_memory s_buf ;;
      return_ (- ENOMEM)
  | Some _ =>
  ok <- copy_from_user_payload ;;
  if negb ok then
    fcs_close_services s_buf ps_buf ;;
    return_ (- EFAULT)
  else
  let msg := set_payload_length datasz msg in
  let msg := set_command COMMAND_FCS_SEND_CERTIFICATE msg in
  let msg := set_payload s_buf msg in
  register_cb cb_fcs_vab ;;
  ret <- fcs_request_service msg FCS_REQUEST_TIMEOUT ;;
  priv <- get_priv ;;
  '(ret, data) <-
    (if succeeded ret priv then
       let msg := set_payload ps_buf msg in
       let msg := set_payload_length PS_BUF_SIZE msg in
       let msg := set_command COMMAND_POLL_SERVICE_STATUS msg in
       register_cb cb_fcs_data ;;
       ret <- fcs_request_service msg FCS_COMPLETED_TIMEOUT ;;
       priv <- get_priv ;;
       if succeeded ret priv then
         pure (ret, set f_status 0 data)
       else
         match kbuf priv with
         | Some _ =>
             c_status <- deref (load_u32 (kbuf priv)) ;;
             pure (ret, set f_c_request_c_status c_status data)
         | None =>
             pure (ret, set f_c_request_c_status INVALID_STATUS data)
         end
     else
       pure (ret, set f_status (status priv) data)) ;;
  ok <- copy_to_user_arg data ;;
  ret <- (if negb ok then
            fcs_close_services s_buf None ;;
            pure (- EFAULT)
          else pure ret) ;;
  fcs_close_services s_buf ps_buf ;;
  pure ret
  end end end.

Definition case_COUNTER_SET_PREAUTHORIZED (data : intel_fcs_dev_ioctl)
    (msg : stratix10_svc_client_msg) : M Z :=
  arg <- copy_from_user_arg ;;
  match arg with
  | None => return_ (- EFAULT)
  | Some data =>
  let msg := set_command COMMAND_FCS_COUNTER_SET_PREAUTHORIZED msg in
  let msg := set_arg0 (data f_i_request_counter_type) msg in
  let msg := set_arg1 (data f_i_request_counter_value) msg in
  let msg := set_arg2 (data f_i_request_test_word) msg in
  register_cb cb_fcs_vab ;;
  ret <- fcs_request_service msg FCS_REQUEST_TIMEOUT ;;
  if negb (ret =? 0) then return_ (- EFAULT)
  else
  priv <- get_priv ;;
  let data := set f_status (status priv) data in
  ok <- copy_to_user_arg data ;;
  let ret := if negb ok then - EFAULT else ret in
  pure ret
  end.

Definition case_RANDOM_NUMBER_GEN (data : intel_fcs_dev_ioctl)
    (msg : stratix10_svc_client_msg) : M Z :=
  arg <- copy_from_user_arg ;;
  match arg with
  | None => return_ (- EFAULT)
  | Some data =>
  s_buf <- stratix10_svc_allocate_memory RANDOM_NUMBER_SIZE ;;
  match s_buf with
  | None => return_ (- ENOMEM)
  | Some _ =>
  let msg := set_command COMMAND_FCS_RANDOM_NUMBER_GEN msg in
  let msg := set_payload s_buf msg in
  let msg := set_payload_length RANDOM_NUMBER_SIZE msg in
  register_cb cb_fcs_data ;;
  ret <- fcs_request_service msg FCS_REQUEST_TIMEOUT ;;
  priv <- get_priv ;;
  data <-
    (if succeeded ret priv then
       match kbuf priv with
       | None =>
           fcs_close_services s_buf None ;;
           return_ (- EFAULT)
       | Some _ =>
           ws <- deref (load_words (kbuf priv) 8) ;;
           let data := set_words f_rn_gen_rndm 0 ws data in
           pure (set f_status (status priv) data)
       end
     else
       pure (set f_status (status priv) data)) ;;
  ok <- copy_to_user_arg data ;;
  ret <- (if negb ok then
            fcs_close_services s_buf None ;;
            pure (- EFAULT)
          else pure ret) ;;
  fcs_close_services s_buf None ;;
  pure ret
  end end.

Definition case_GET_PROVISION_DATA (data : intel_fcs_dev_ioctl)
    (msg : stratix10_svc_client_msg) : M Z :=
  arg <- copy_from_user_arg ;;
  match arg with
  | None => return_ (- EFAULT)
  | Some data =>
  s_buf <- stratix10_svc_allocate_memory (data f_gp_data_size) ;;
  match s_buf with
  | None => return_ (- ENOMEM)
  | Some _ =>
  let msg := set_command COMMAND_FCS_GET_PROVISION_DATA msg in
  let msg := set_payload s_buf msg in
  let msg := set_payload_length (data f_gp_data_size) msg in
  register_cb cb_fcs_data ;;
  ret <- fcs_request_service msg FCS_REQUEST_TIMEOUT ;;
  priv <- get_priv ;;
  '(ret, data) <-
    (if succeeded ret priv then
       match kbuf priv with
       | None =>
           fcs_close_services s_buf None ;;
           return_ (- EFAULT)
       | Some _ =>
           let data := set f_gp_data_size (size priv) data in
           ok <- copy_to_user_payload (data f_gp_data_addr) (size priv) ;;
           if negb ok then
             fcs_close_services s_buf None ;;
             return_ (- EFAULT)
           else
             pure (0, set f_status 0 data)
       end
     else
       let data := set f_gp_data_addr 0 data in
       let data := set f_gp_data_size 0 data in
       pure (ret, set f_status (status priv) data)) ;;
  ok <- copy_to_user_arg data ;;
  if negb ok then
    fcs_close_services s_buf None ;;
    return_ (- EFAULT)
  else
  fcs_close_services s_buf None ;;
  pure ret
  end end.

Definition case_DATA_ENCRYPTION (data : intel_fcs_dev_ioctl)
    (msg : stratix10_svc_client_msg) : M Z :=
  arg <- copy_from_user_arg ;;
  match arg with
  | None => return_ (- EFAULT)
  | Some data =>
  if (data f_d_src_size <? DEC_MIN_SZ) || (data f_d_src_size >? DEC_MAX_SZ) then
    return_ (- EFAULT)
  else
  if (data f_d_dst_size <? ENC_MIN_SZ) || (data f_d_dst_size >? ENC_MAX_SZ) then
    return_ (- EFAULT)
  else
  s_buf <- stratix10_svc_allocate_memory DEC_MAX_SZ ;;
  match s_buf with
  | None => return_ (- ENOMEM)
  | Some _ =>
  d_buf <- stratix10_svc_allocate_memory ENC_MAX_SZ ;;
  match d_buf with
  | None =>
      stratix10_svc_free_memory s_buf ;;
      return_ (- ENOMEM)
  | Some _ =>
  ps_buf <- stratix10_svc_allocate_memory PS_BUF_SIZE ;;
  match ps_buf with
  | None =>
      fcs_close_services s_buf d_buf ;;
      return_ (- ENOMEM)
  | Some _ =>
  ok <- copy_from_user_payload ;;
  if negb ok then
    fcs_close_services ps_buf None ;;
    fcs_close_services s_buf d_buf ;;
    return_ (- ENOMEM)
  else
  let msg := set_command COMMAND_FCS_DATA_ENCRYPTION msg in
  let msg := set_payload s_buf msg in
  let msg := set_payload_length (data f_d_src_size) msg in
  let msg := set_payload_output d_buf msg in
  let msg := set_payload_length_output (data f_d_dst_size) msg in
  register_cb cb_fcs_vab ;;
  ret <- fcs_request_service msg FCS_REQUEST_TIMEOUT ;;
  priv <- get_priv ;;
  '(ret, data) <-
    (if succeeded ret priv then
       let msg := set_payload ps_buf msg in
       let msg := set_payload_length PS_BUF_SIZE msg in
       let msg := set_command COMMAND_POLL_SERVICE_STATUS msg in
       register_cb cb_fcs_data ;;
       ret <- fcs_request_service msg FCS_COMPLETED_TIMEOUT ;;
       priv <- get_priv ;;
       if succeeded ret priv then
         match kbuf priv with
         | None =>
             fcs_close_services ps_buf None ;;
             fcs_close_services s_buf d_buf ;;
             return_ (- EFAULT)
         | Some _ =>
             buf_sz <- deref (load_u32 (kbuf priv)) ;;
             let data := set f_d_dst_size buf_sz data in
             let data := set f_status 0 data in
             ok <- copy_to_user_payload (data f_d_dst) buf_sz ;;
             if negb ok then
               fcs_close_services ps_buf None ;;
               fcs_close_services s_buf d_buf ;;
               return_ (- EFAULT)
             else
               pure (0, data)
         end
       else
         let data := set f_d_dst 0 data in
         let data := set f_d_dst_size 0 data in
         pure (ret, set f_status (status priv) data)
     else
       let data := set f_d_dst 0 data in
       let data := set f_d_dst_size 0 data in
       pure (ret, set f_status (status priv) data)) ;;
  ok <- copy_to_user_arg data ;;
  ret <- (if negb ok then
            fcs_close_services ps_buf None ;;
            fcs_close_services s_buf d_buf ;;
            pure (- EFAULT)
          else pure ret) ;;
  fcs_close_services ps_buf None ;;
  fcs_close_services s_buf d_buf ;;
  pure ret
  end end end end.

Definition case_DATA_DECRYPTION (data : intel_fcs_dev_ioctl)
    (msg : stratix10_svc_client_msg) : M Z :=
  arg <- copy_from_user_arg ;;
  match arg with
  | None => return_ (- EFAULT)
  | Some data =>
  if (data f_d_src_size <? ENC_MIN_SZ) || (data f_d_src_size >? ENC_MAX_SZ) then
    return_ (- EFAULT)
  else
  if (data f_d_dst_size <? DEC_MIN_SZ) || (data f_d_dst_size >? DEC_MAX_SZ) then
    return_ (- EFAULT)
  else
  s_buf <- stratix10_svc_allocate_memory ENC_MAX_SZ ;;
  match s_buf with
  | None => return_ (- ENOMEM)
  | Some _ =>
  d_buf <- stratix10_svc_allocate_memory DEC_MAX_SZ ;;
  match d_buf with
  | None =>
      stratix10_svc_free_memory s_buf ;;
      return_ (- ENOMEM)
  | Some _ =>
  ps_buf <- stratix10_svc_allocate_memory PS_BUF_SIZE ;;
  match ps_buf with
  | None =>
      fcs_close_services s_buf d_buf ;;
      return_ (- ENOMEM)
  | Some _ =>
  ok <- copy_from_user_payload ;;
  if negb ok then
    fcs_close_services ps_buf None ;;
    fcs_close_services s_buf d_buf ;;
    return_ (- EFAULT)
  else
  let msg := set_command COMMAND_FCS_DATA_DECRYPTION msg in
  let msg := set_payload s_buf msg in
  let msg := set_payload_length (data f_d_src_size) msg in
  let msg := set_payload_output d_buf msg in
  let msg := set_payload_length_output (data f_d_dst_size) msg in
  register_cb cb_fcs_vab ;;
  ret <- fcs_request_service msg FCS_REQUEST_TIMEOUT ;;
  priv <- get_priv ;;
  '(ret, data) <-
    (if succeeded ret priv then
       let msg := set_command COMMAND_POLL_SERVICE_STATUS msg in
       let msg := set_payload ps_buf msg in
       let msg := set_payload_length PS_BUF_SIZE msg in
       register_cb cb_fcs_data ;;
       ret <- fcs_request_service msg FCS_COMPLETED_TIMEOUT ;;
       priv <- get_priv ;;
       if succeeded ret priv then
         match kbuf priv with
         | None =>
             fcs_close_services ps_buf None ;;
             fcs_close_services s_buf d_buf ;;
             return_ (- EFAULT)
         | Some _ =>
             buf_sz <- deref (load_u32 (kbuf priv)) ;;
             let data := set f_d_dst_size buf_sz data in
             let data := set f_status 0 data in
             ok <- copy_to_user_payload (data f_d_dst) buf_sz ;;
             if negb ok then
               fcs_close_services ps_buf None ;;
               fcs_close_services s_buf d_buf ;;
               return_ (- EFAULT)
             else
               pure (0, data)
         end
       else
         let data := set f_d_dst 0 data in
         let data := set f_d_dst_size 0 data in
         pure (ret, set f_status (status priv) data)
     else
       let data := set f_d_dst 0 data in
       let data := set f_d_dst_size 0 data in
       pure (ret, set f_status (status priv) data)) ;;
  ok <- copy_to_user_arg data ;;
  ret <- (if negb ok then
            fcs_close_services ps_buf None ;;
            fcs_close_services s_buf d_buf ;;
            pure (- EFAULT)
          else pure ret) ;;
  fcs_close_services ps_buf None ;;
  fcs_close_services s_buf d_buf ;;
  pure ret
  end end end end.

Definition case_PSGSIGMA_TEARDOWN (data : intel_fcs_dev_ioctl)
    (msg : stratix10_svc_client_msg) : M Z :=
  arg <- copy_from_user_arg ;;
  match arg with
  | None => return_ (- EFAULT)
  | Some data =>
  let sid := data f_tdown_sid in
  if negb (sid =? SIGMA_SESSION_ID_ONE) && negb (sid =? SIGMA_UNKNOWN_SESSION)
  then return_ (- EFAULT)
  else
  let msg := set_command COMMAND_FCS_PSGSIGMA_TEARDOWN msg in
  let msg := set_arg0 sid msg in
  register_cb cb_fcs_vab ;;
  ret <- fcs_request_service msg FCS_REQUEST_TIMEOUT ;;
  if negb (ret =? 0) then return_ (- EFAULT)
  else
  priv <- get_priv ;;
  let data := set f_status (status priv) data in
  ok <- copy_to_user_arg data ;;
  let ret := if negb ok then - EFAULT else ret in
  pure ret
  end.

Definition case_CHIP_ID (data : intel_fcs_dev_ioctl)
    (msg : stratix10_svc_client_msg) : M Z :=
  let msg := set_command COMMAND_FCS_GET_CHIP_ID msg in
  register_cb cb_fcs_chipid ;;
  ret <- fcs_request_service msg FCS_REQUEST_TIMEOUT ;;
  if negb (ret =? 0) then return_ (- EFAULT)
  else
  priv <- get_priv ;;
  let data := set f_status (status priv) data in
  let data := set f_c_id_chip_id_low (cid_low priv) data in
  let data := set f_c_id_chip_id_high (cid_high priv) data in
  ok <- copy_to_user_arg data ;;
  let ret := if negb ok then - EFAULT else ret in
  pure ret.

Definition case_ATTESTATION_SUBKEY (data : intel_fcs_dev_ioctl)
    (msg : stratix10_svc_client_msg) : M Z :=
  arg <- copy_from_user_arg ;;
  match arg with
  | None => return_ (- EFAULT)
  | Some data =>
  if data f_subkey_cmd_data_sz >? SUBKEY_CMD_MAX_SZ then return_ (- EFAULT)
  else
  if data f_subkey_rsp_data_sz >? SUBKEY_RSP_MAX_SZ then return_ (- EFAULT)
  else
  let rsz := sizeof_attestation_resv_word in
  let datasz := data f_subkey_cmd_data_sz + rsz in
  s_buf <- stratix10_svc_allocate_memory (SUBKEY_CMD_MAX_SZ + rsz) ;;
  match s_buf with
  | None => return_ (- ENOMEM)
  | Some _ =>
  d_buf <- stratix10_svc_allocate_memory SUBKEY_RSP_MAX_SZ ;;
  match d_buf with
  | None => return_ (- ENOMEM)
  | Some _ =>
  let msg := set_command COMMAND_FCS_ATTESTATION_SUBKEY msg in
  let msg := set_payload s_buf msg in
  let msg := set_payload_length datasz msg in
  let msg := set_payload_output d_buf msg in
  let msg := set_payload_length_output SUBKEY_RSP_MAX_SZ msg in
  register_cb cb_fcs_attestation ;;
  ret <- fcs_request_service msg (10 * FCS_REQUEST_TIMEOUT) ;;
  priv <- get_priv ;;
  data <-
    (if succeeded ret priv then
       if size priv >? SUBKEY_RSP_MAX_SZ then
         fcs_close_services s_buf d_buf ;;
         return_ (- EFAULT)
       else
         memcpy_from_kbuf (data f_subkey_rsp_data) (kbuf priv) (size priv) ;;
         let data := set f_subkey_rsp_data_sz (size priv) data in
         pure (set f_status (status priv) data)
     else
       let data := set f_subkey_rsp_data 0 data in
       let data := set f_subkey_rsp_data_sz 0 data in
       pure (set f_status (status priv) data)) ;;
  ok <- copy_to_user_arg data ;;
  if negb ok then return_ (- EFAULT)
  else
  fcs_close_services s_buf d_buf ;;
  pure ret
  end end end.

Definition case_ATTESTATION_MEASUREMENT (data : intel_fcs_dev_ioctl)
    (msg : stratix10_svc_client_msg) : M Z :=
  arg <- copy_from_user_arg ;;
  match arg with
  | None => return_ (- EFAULT)
  | Some data =>
  if data f_measurement_cmd_data_sz >? MEASUREMENT_CMD_MAX_SZ then
    return_ (- EFAULT)
  else
  if data f_measurement_rsp_data_sz >? MEASUREMENT_RSP_MAX_SZ then
    return_ (- EFAULT)
  else
  let rsz := sizeof_attestation_resv_word in
  let datasz := data f_measurement_cmd_data_sz + rsz in
  s_buf <- stratix10_svc_allocate_memory (MEASUREMENT_CMD_MAX_SZ + rsz) ;;
  match s_buf with
  | None => return_ (- ENOMEM)
  | Some _ =>
  d_buf <- stratix10_svc_allocate_memory MEASUREMENT_RSP_MAX_SZ ;;
  match d_buf with
  | None => return_ (- ENOMEM)
  | Some _ =>
  let msg := set_command COMMAND_FCS_ATTESTATION_MEASUREMENTS msg in
  let msg := set_payload s_buf msg in
  let msg := set_payload_length datasz msg in
  let msg := set_payload_output d_buf msg in
  let msg := set_payload_length_output MEASUREMENT_RSP_MAX_SZ msg in
  register_cb cb_fcs_attestation ;;
  ret <- fcs_request_service msg (10 * FCS_REQUEST_TIMEOUT) ;;
  priv <- get_priv ;;
  data <-
    (if succeeded ret priv then
       if size priv >? MEASUREMENT_RSP_MAX_SZ then
         fcs_close_services s_buf d_buf ;;
         return_ (- EFAULT)
       else
         memcpy_from_kbuf (data f_measurement_rsp_data) (kbuf priv)
                          (size priv) ;;
         let data := set f_measurement_rsp_data_sz (size priv) data in
         pure (set f_status (status priv) data)
     else
       let data := set f_measurement_rsp_data 0 data in
       let data := set f_measurement_rsp_data_sz 0 data in
       pure (set f_status (status priv) data)) ;;
  ok <- copy_to_user_arg data ;;
  let ret := if negb ok then - EFAULT else ret in
  fcs_close_services s_buf d_buf ;;
  pure ret
  end end end.

Definition case_ATTESTATION_GET_CERTIFICATE (data : intel_fcs_dev_ioctl)
    (msg : stratix10_svc_client_msg) : M Z :=
  arg <- copy_from_user_arg ;;
  match arg with
  | None => return_ (- EFAULT)
  | Some data =>
  if data f_certificate_rsp_data_sz >? CERTIFICATE_RSP_MAX_SZ then
    return_ (- EFAULT)
  else
  d_buf <- stratix10_svc_allocate_memory CERTIFICATE_RSP_MAX_SZ ;;
  match d_buf with
  | None => return_ (- ENOMEM)
  | Some _ =>
  let msg := set_command COMMAND_FCS_ATTESTATION_CERTIFICATE msg in
  let msg := set_payload None msg in
  let msg := set_payload_length 0 msg in
  let msg := set_payload_output d_buf msg in
  let msg := set_payload_length_output CERTIFICATE_RSP_MAX_SZ msg in
  let msg := set_arg0 (Z.land (data f_certificate_c_request) 0x000f) msg in
  register_cb cb_fcs_attestation ;;
  ret <- fcs_request_service msg (10 * FCS_REQUEST_TIMEOUT) ;;
  priv <- get_priv ;;
  data <-
    (if succeeded ret priv then
       if size priv >? CERTIFICATE_RSP_MAX_SZ then
         fcs_close_services None d_buf ;;
         return_ (- EFAULT)
       else
         memcpy_from_kbuf (data f_certificate_rsp_data) (kbuf priv)
                          (size priv) ;;
         let data := set f_certificate_rsp_data_sz (size priv) data in
         pure (set f_status (status priv) data)
     else
       let data := set f_certificate_rsp_data 0 data in
       let data := set f_certificate_rsp_data_sz 0 data in
       pure (set f_status (status priv) data)) ;;
  ok <- copy_to_user_arg data ;;
  ret <- (if negb ok then
            fcs_close_services None d_buf ;;
            pure (- EFAULT)
          else pure ret) ;;
  fcs_close_services None d_buf ;;
  pure ret
  end end.

Definition case_ATTESTATION_CERTIFICATE_RELOAD (data : intel_fcs_dev_ioctl)
    (msg : stratix10_svc_client_msg) : M Z :=
  arg <- copy_from_user_arg ;;
  match arg with
  | None => return_ (- EFAULT)
  | Some data =>
  let msg := set_command COMMAND_FCS_ATTESTATION_CERTIFICATE_RELOAD msg in
  let msg := set_arg0 (Z.land (data f_c_reload_c_request) 0x000f) msg in
  register_cb cb_fcs_vab ;;
  ret <- fcs_request_service msg (10 * FCS_REQUEST_TIMEOUT) ;;
  if negb (ret =? 0) then return_ (- EFAULT)
  else
  priv <- get_priv ;;
  let data := set f_status (status priv) data in
  ok <- copy_to_user_arg data ;;
  let ret := if negb ok then - EFAULT else ret in
  pure ret
  end.

Definition case_GET_ROM_PATCH_SHA384 (data : intel_fcs_dev_ioctl)
    (msg : stratix10_svc_client_msg) : M Z :=
  arg <- copy_from_user_arg ;;
  match arg with
  | None => return_ (- EFAULT)
  | Some data =>
  s_buf <- stratix10_svc_allocate_memory SHA384_SIZE ;;
  match s_buf with
  | None => return_ (- ENOMEM)
  | Some _ =>
  let msg := set_command COMMAND_FCS_GET_ROM_PATCH_SHA384 msg in
  let msg := set_payload s_buf msg in
  let msg := set_payload_length SHA384_SIZE msg in
  register_cb cb_fcs_data ;;
  ret <- fcs_request_service msg FCS_REQUEST_TIMEOUT ;;
  priv <- get_priv ;;
  '(ret, data) <-
    (if succeeded ret priv then
       match kbuf priv with
       | None =>
           fcs_close_services s_buf None ;;
           return_ (- EFAULT)
       | Some _ =>
           ret <- (if size priv >? SHA384_SIZE then
                     fcs_close_services s_buf None ;;
                     pure (- EFAULT)
                   else pure ret) ;;
           ws <- deref (load_words (kbuf priv) 12) ;;
           let data := set_words f_sha384_checksum 0 ws data in
           pure (ret, set f_status (status priv) data)
       end
     else
       pure (ret, set f_status (status priv) data)) ;;
  ok <- copy_to_user_arg data ;;
  ret <- (if negb ok then
            fcs_close_services s_buf None ;;
            pure (- EFAULT)
          else pure ret) ;;
  fcs_close_services s_buf None ;;
  pure ret
  end end.

(** *** fcs_ioctl *)

Definition zeroed_data : intel_fcs_dev_ioctl := fun _ => 0.

Definition fcs_ioctl (cmd : ioctl_cmd) : M Z :=
  ok <- devm_kzalloc_data ;;
  if negb ok then return_ (- ENOMEM)
  else
  let data := zeroed_data in
  ok <- devm_kzalloc_msg ;;
  if negb ok then return_ (- ENOMEM)
  else
  let msg := zeroed_msg in
  let ret := 0 in
  match cmd with
  | INTEL_FCS_DEV_VALIDATION_REQUEST => case_VALIDATION_REQUEST data msg
  | INTEL_FCS_DEV_SEND_CERTIFICATE => case_SEND_CERTIFICATE data msg
  | INTEL_FCS_DEV_COUNTER_SET_PREAUTHORIZED =>
      case_COUNTER_SET_PREAUTHORIZED data msg
  | INTEL_FCS_DEV_RANDOM_NUMBER_GEN => case_RANDOM_NUMBER_GEN data msg
  | INTEL_FCS_DEV_GET_PROVISION_DATA => case_GET_PROVISION_DATA data msg
  | INTEL_FCS_DEV_DATA_ENCRYPTION => case_DATA_ENCRYPTION data msg
  | INTEL_FCS_DEV_DATA_DECRYPTION => case_DATA_DECRYPTION data msg
  | INTEL_FCS_DEV_PSGSIGMA_TEARDOWN => case_PSGSIGMA_TEARDOWN data msg
  | INTEL_FCS_DEV_CHIP_ID => case_CHIP_ID data msg
  | INTEL_FCS_DEV_ATTESTATION_SUBKEY => case_ATTESTATION_SUBKEY data msg
  | INTEL_FCS_DEV_ATTESTATION_MEASUREMENT =>
      case_ATTESTATION_MEASUREMENT data msg
  | INTEL_FCS_DEV_ATTESTATION_GET_CERTIFICATE =>
      case_ATTESTATION_GET_CERTIFICATE data msg
  | INTEL_FCS_DEV_ATTESTATION_CERTIFICATE_RELOAD =>
      case_ATTESTATION_CERTIFICATE_RELOAD data msg
  | INTEL_FCS_DEV_GET_ROM_PATCH_SHA384 => case_GET_ROM_PATCH_SHA384 data msg
  | INTEL_FCS_DEV_other _ => pure ret
  end.

End Driver.

(** ** Outcomes and trace observations *)

(** The value [fcs_ioctl] returns, whether by [return] inside a case or
    at the end of the function. *)
Definition returned (r : result Z) : option (Z * world) :=
  match r with
  | Next v w => Some (v, w)
  | Exit v w => Some (v, w)
  | Oops _ => None
  | Hang _ => None
  end.

(** One ioctl call on a device in state [p]. *)
Definition run_ioctl {hdr : svc_header} (e : env) (cmd : ioctl_cmd)
    (p : intel_fcs_priv) : result Z :=
  fcs_ioctl e cmd (initial_world p).

Definition is_alloc (ev : event) : bool :=
  match ev with EvAlloc _ _ => true | _ => false end.
Definition is_alloc_attempt (ev : event) : bool :=
  match ev with EvAlloc _ _ | EvAllocFail _ => true | _ => false end.
Definition is_free (ev : event) : bool :=
  match ev with EvFree _ => true | _ => false end.
Definition is_free_of (b : nat) (ev : event) : bool :=
  match ev with EvFree b' => Nat.eqb b b' | _ => false end.
Definition is_send (ev : event) : bool :=
  match ev with EvSend _ => true | _ => false end.

Definition count (f : event -> bool) (t : list event) : nat :=
  length (filter f t).

(** Buffers the trace allocates. *)
Fixpoint allocated (t : list event) : list nat :=
  match t with
  | [] => []
  | EvAlloc b _ :: t' => b :: allocated t'
  | _ :: t' => allocated t'
  end.

(** Every buffer allocated in the trace is freed exactly once in it. *)
Definition balanced (t : list event) : bool :=
  forallb (fun b => Nat.eqb (count (is_free_of b) t) 1) (allocated t)
  && Nat.eqb (count is_alloc t) (count is_free t).

(** Commands sent on the channel, in order. *)
Fixpoint sent (t : list event) : list stratix10_svc_command_code :=
  match t with
  | [] => []
  | EvSend m :: t' => command m :: sent t'
  | _ :: t' => sent t'
  end.

(** What the calls of [fcs_request_service] returned, in order, each with
    [priv->status] at that moment. *)
Fixpoint service_returns (t : list event) : list (Z * Z) :=
  match t with
  | [] => []
  | EvServiceRet r st :: t' => (r, st) :: service_returns t'
  | _ :: t' => service_returns t'
  end.

(** The structure the caller gets back: the one of the successful
    [copy_to_user(arg, data)]. *)
Fixpoint copied_back (t : list event) : option intel_fcs_dev_ioctl :=
  match t with
  | [] => None
  | EvCopyBack d true :: _ => Some d
  | _ :: t' => copied_back t'
  end.

(** The world a run ends in, whatever its outcome. *)
Definition world_of {A : Type} (r : result A) : world :=
  match r with
  | Next _ w | Exit _ w | Oops w | Hang w => w
  end.

(** Sizes of the allocation requests of a trace, in order. *)
Fixpoint alloc_sizes (t : list event) : list Z :=
  match t with
  | [] => []
  | EvAlloc _ sz :: t' => sz :: alloc_sizes t'
  | EvAllocFail sz :: t' => sz :: alloc_sizes t'
  | _ :: t' => alloc_sizes t'
  end.

(** Lengths announced for the input payload of the messages sent. *)
Fixpoint sent_payload_lengths (t : list event) : list Z :=
  match t with
  | [] => []
  | EvSend m :: t' => payload_length m :: sent_payload_lengths t'
  | _ :: t' => sent_payload_lengths t'
  end.

(** ** The operation catalog, as the statements below use it *)


Definition in_range (lo hi x : Z) : bool := (lo <=? x) && (x <=? hi).

(** The static size bounds, operation by operation, with the numbers
    written out: [Some true] when the request [d] breaks a bound of [cmd],
    [None] when [cmd] has no static bound on a caller-supplied size. *)
Definition catalog_violation (cmd : ioctl_cmd) (d : intel_fcs_dev_ioctl) :
    option bool :=
  match cmd with
  | INTEL_FCS_DEV_DATA_ENCRYPTION =>
      Some (negb (in_range 72 32712 (d f_d_src_size)
                  && in_range 120 32760 (d f_d_dst_size)))
  | INTEL_FCS_DEV_DATA_DECRYPTION =>
      Some (negb (in_range 120 32760 (d f_d_src_size)
                  && in_range 72 32712 (d f_d_dst_size)))
  | INTEL_FCS_DEV_ATTESTATION_SUBKEY =>
      Some (negb ((d f_subkey_cmd_data_sz <=? 4092)
                  && (d f_subkey_rsp_data_sz <=? 820)))
  | INTEL_FCS_DEV_ATTESTATION_MEASUREMENT =>
      Some (negb ((d f_measurement_cmd_data_sz <=? 4092)
                  && (d f_measurement_rsp_data_sz <=? 4092)))
  | INTEL_FCS_DEV_ATTESTATION_GET_CERTIFICATE =>
      Some (negb (d f_certificate_rsp_data_sz <=? 4096))
  | _ => None
  end.


(** ** Concrete requests *)

(** A notification with the given status word; the three addresses point
    at an error code, at twelve result words and at a length. *)
Definition notify (st : Z) (len : Z) : stratix10_svc_cb_data :=
  {| cb_status := st;
     kaddr1 := Some [0x3ff];
     kaddr2 := Some [11; 12; 13; 14; 15; 16; 17; 18; 19; 20; 21; 22];
     kaddr3 := Some [len] |}.

(** A caller's structure: every size 128, status 7, session 1. *)
Definition sample_arg : intel_fcs_dev_ioctl :=
  set f_tdown_sid SIGMA_SESSION_ID_ONE (set f_status 7 (fun _ => 128)).

(** Everything succeeds; every message is answered OK with 32 bytes. *)
Definition env_ok : env := {|
  kzalloc_data := true;
  kzalloc_msg := true;
  user_arg := Some sample_arg;
  firmware := Some 1024;
  alloc_ok := fun _ => true;
  user_payload_ok := true;
  service := fun _ => {| send_ret := 0;
                         notification := Some (notify (BIT 0) 32) |};
  payload_out_ok := true;
  copy_back_ok := true
|}.

Definition with_copy_back (b : bool) (e : env) : env :=
  {| kzalloc_data := kzalloc_data e; kzalloc_msg := kzalloc_msg e;
     user_arg := user_arg e; firmware := firmware e; alloc_ok := alloc_ok e;
     user_payload_ok := user_payload_ok e; service := service e;
     payload_out_ok := payload_out_ok e; copy_back_ok := b |}.

Definition with_alloc_ok (f : nat -> bool) (e : env) : env :=
  {| kzalloc_data := kzalloc_data e; kzalloc_msg := kzalloc_msg e;
     user_arg := user_arg e; firmware := firmware e; alloc_ok := f;
     user_payload_ok := user_payload_ok e; service := service e;
     payload_out_ok := payload_out_ok e; copy_back_ok := copy_back_ok e |}.

Definition with_service (f : nat -> svc_reply) (e : env) : env :=
  {| kzalloc_data := kzalloc_data e; kzalloc_msg := kzalloc_msg e;
     user_arg := user_arg e; firmware := firmware e; alloc_ok := alloc_ok e;
     user_payload_ok := user_payload_ok e; service := f;
     payload_out_ok := payload_out_ok e; copy_back_ok := copy_back_ok e |}.

Definition with_user_arg (d : intel_fcs_dev_ioctl) (e : env) : env :=
  {| kzalloc_data := kzalloc_data e; kzalloc_msg := kzalloc_msg e;
     user_arg := Some d; firmware := firmware e; alloc_ok := alloc_ok e;
     user_payload_ok := user_payload_ok e; service := service e;
     payload_out_ok := payload_out_ok e; copy_back_ok := copy_back_ok e |}.

Definition with_kzalloc_data (b : bool) (e : env) : env :=
  {| kzalloc_data := b; kzalloc_msg := kzalloc_msg e;
     user_arg := user_arg e; firmware := firmware e; alloc_ok := alloc_ok e;
     user_payload_ok := user_payload_ok e; service := service e;
     payload_out_ok := payload_out_ok e; copy_back_ok := copy_back_ok e |}.

(** The final copy of the structure to the caller fails. *)
Definition env_copy_back_fails : env := with_copy_back false env_ok.

(** The pool gives one buffer and refuses the second. *)
Definition env_second_alloc_fails : env :=
  with_alloc_ok (fun n => Nat.eqb n 0) env_ok.


(** The co-processor reports a 5000-byte response. *)
Definition env_oversize : env :=
  with_service
    (fun _ => {| send_ret := 0; notification := Some (notify (BIT 0) 5000) |})
    env_ok.

(** A decryption request whose source has [n] bytes (destination 128). *)
Definition env_decrypt (n : Z) : env :=
  with_user_arg (set f_d_src_size n sample_arg) env_ok.


(** ** Further trace observations *)

(** Frees only name buffers the trace has allocated before ([seen] holds
    the buffers allocated so far). *)
Fixpoint frees_known (seen : list nat) (t : list event) : bool :=
  match t with
  | [] => true
  | EvAlloc b _ :: t' => frees_known (b :: seen) t'
  | EvFree b :: t' => existsb (Nat.eqb b) seen && frees_known seen t'
  | _ :: t' => frees_known seen t'
  end.

(** The buffer [b] of a message is NULL, or was allocated in the trace with
    at least [len] bytes. *)
Definition fits (t : list event) (b : buffer) (len : Z) : Prop :=
  match b with
  | None => True
  | Some n => exists sz, In (EvAlloc n sz) t /\ len <= sz
  end.



(** ** fcs_driver_probe and fcs_driver_remove

    What the two functions change outside [priv]: the driver data of the
    platform device, the service channels held and the registration of the
    misc device. *)
Record platform_device : Type := mk_pdev {
  drvdata : option intel_fcs_priv;   (* platform_get_drvdata *)
  channels_held : nat;               (* requested and not freed *)
  misc_registered : bool
}.

(** linux/err.h: a pointer whose value, read as a signed long, lies in
    [-MAX_ERRNO, -1] carries an error code. *)
Definition MAX_ERRNO : Z := 4095.
Definition IS_ERR (ptr : Z) : bool := (- MAX_ERRNO <=? ptr) && (ptr <? 0).

(** What the kernel answers during one probe: whether [devm_kzalloc]
    succeeds, the pointer [stratix10_svc_request_channel_byname] returns
    and the value of [misc_register]. *)
Record probe_env : Type := {
  probe_kzalloc : bool;
  channel_ptr : Z;
  misc_register_ret : Z
}.

(** A structure fresh from [devm_kzalloc]. *)
Definition zeroed_priv : intel_fcs_priv :=
  mk_priv None 0 false 0 None 0 0 0.

Definition fcs_driver_probe (pe : probe_env) (pdev : platform_device) :
    Z * platform_device :=
  if negb (probe_kzalloc pe) then (- ENOMEM, pdev)
  else
    let priv := zeroed_priv in
    let priv := set_receive_cb None priv in
    let priv := set_kbuf None priv in
    let priv := set_size 0 priv in
    let priv := set_status INVALID_STATUS priv in
    let priv := set_cid_low INVALID_CID priv in
    let priv := set_cid_high INVALID_CID priv in
    let priv := set_lock false priv in              (* mutex_init *)
    if IS_ERR (channel_ptr pe) then (channel_ptr pe, pdev)  (* PTR_ERR *)
    else
        let pdev := mk_pdev (drvdata pdev) (S (channels_held pdev))
                            (misc_registered pdev) in
        let priv := set_completion 0 priv in        (* init_completion *)
        let pdev := mk_pdev (Some priv) (channels_held pdev)
                            (misc_registered pdev) in
        let ret := misc_register_ret pe in
        if negb (ret =? 0) then (ret, pdev)
        else
          (0, mk_pdev (drvdata pdev) (channels_held pdev) true).

(** [fcs_driver_remove] reads the driver data; without it there is nothing
    to dereference. *)
Definition fcs_driver_remove (pdev : platform_device) :
    option (Z * platform_device) :=
  match drvdata pdev with
  | None => None
  | Some _ =>
      let pdev := mk_pdev (drvdata pdev) (channels_held pdev) false in
      let pdev := mk_pdev (drvdata pdev) (Nat.pred (channels_held pdev))
                          (misc_registered pdev) in
      Some (0, pdev)
  end.

(** A device nothing has been bound to. *)
Definition unbound_device : platform_device := mk_pdev None 0 false.

(** Probes: everything succeeds; misc_register answers -EBUSY. *)
Definition sample_probe : probe_env :=
  {| probe_kzalloc := true; channel_ptr := 0x1000; misc_register_ret := 0 |}.
Definition sample_probe_misc_busy : probe_env :=
  {| probe_kzalloc := true; channel_ptr := 0x1000; misc_register_ret := -16 |}.


(** The messages sent on the channel, in order. *)
Fixpoint messages (t : list event) : list stratix10_svc_client_msg :=
  match t with
  | [] => []
  | EvSend m :: t' => m :: messages t'
  | _ :: t' => messages t'
  end.

(** A buffer named by a message is NULL or one of the buffers in [live]. *)
Definition buf_live (live : list nat) (b : buffer) : bool :=
  match b with
  | None => true
  | Some n => existsb (Nat.eqb n) live
  end.

(** Every message is sent while its two buffers are allocated and not yet
    freed ([live] holds the buffers allocated and not freed so far). *)
Fixpoint sends_live (live : list nat) (t : list event) : bool :=
  match t with
  | [] => true
  | EvAlloc b _ :: t' => sends_live (b :: live) t'
  | EvFree b :: t' =>
      sends_live (filter (fun n => negb (Nat.eqb n b)) live) t'
  | EvSend m :: t' =>
      buf_live live (payload m) && buf_live live (payload_output m)
      && sends_live live t'
  | _ :: t' => sends_live live t'
  end.

(** ** Symbolic execution of driver code

    [run_paths] unfolds the driver on the current goal and splits it on
    every answer of the environment it meets, one goal per path. *)

Ltac unfold_driver :=
  cbv beta iota zeta delta
    [run_ioctl fcs_ioctl initial_world world_of returned
     case_VALIDATION_REQUEST case_SEND_CERTIFICATE
     case_COUNTER_SET_PREAUTHORIZED case_RANDOM_NUMBER_GEN
     case_GET_PROVISION_DATA case_DATA_ENCRYPTION case_DATA_DECRYPTION
     case_PSGSIGMA_TEARDOWN case_CHIP_ID case_ATTESTATION_SUBKEY
     case_ATTESTATION_MEASUREMENT case_ATTESTATION_GET_CERTIFICATE
     case_ATTESTATION_CERTIFICATE_RELOAD case_GET_ROM_PATCH_SHA384
     fcs_request_service fcs_close_services register_cb succeeded
     bind pure return_ emit get_priv put_priv modify_priv oops deref
     devm_kzalloc_data devm_kzalloc_msg copy_from_user_arg request_firmware
     copy_from_user_payload copy_to_user_payload copy_to_user_arg
     memcpy_from_kbuf stratix10_svc_allocate_memory stratix10_svc_free_memory
     stratix10_svc_done stratix10_svc_send mutex_lock mutex_unlock
     reinit_completion wait_for_completion_timeout call_receive_cb
     set_receive_cb set_completion set_lock set_status set_kbuf set_size
     set_cid_low set_cid_high];
  cbn [w_priv w_trace w_allocs w_sends w_inflight
       receive_cb completion lock status kbuf size cid_low cid_high];
  change (- EINVAL =? 0) with false;
  change (- ETIMEDOUT =? 0) with false;
  change (1 =? 0) with false;
  cbn [negb andb orb];
  change (0 =? 0) with true;
  cbn [app negb andb orb service_returns sent copied_back alloc_sizes
       sent_payload_lengths].

Ltac split_path :=
  match goal with
  | |- context [match ?x with _ => _ end] =>
      lazymatch x with
      | context [match _ with _ => _ end] => fail
      | negb ?y => let E := fresh "E" in destruct y eqn:E
      | _ => let E := fresh "E" in destruct x eqn:E
      end
  end.

Ltac run_paths := repeat (unfold_driver; try split_path).

(** Turning boolean comparisons in the context into propositions. *)
Ltac reflect_tests :=
  repeat match goal with
         | H : (_ && _) = true |- _ => apply andb_prop in H; destruct H
         | H : (_ || _) = false |- _ => apply orb_false_elim in H; destruct H
         | H : negb _ = true |- _ => apply negb_true_iff in H
         | H : negb _ = false |- _ => apply negb_false_iff in H
         | H : (_ =? _) = true |- _ => apply Z.eqb_eq in H
         | H : (_ =? _) = false |- _ => apply Z.eqb_neq in H
         | H : (_ <=? _) = true |- _ => apply Z.leb_le in H
         | H : (_ <=? _) = false |- _ => apply Z.leb_gt in H
         | H : (_ <? _) = true |- _ => apply Z.ltb_lt in H
         | H : (_ <? _) = false |- _ => apply Z.ltb_ge in H
         | H : (_ >? _) = true |- _ => rewrite Z.gtb_ltb in H
         | H : (_ >? _) = false |- _ => rewrite Z.gtb_ltb in H
         end.

Ltac unfold_bounds :=
  unfold in_range, DEC_MIN_SZ, DEC_MAX_SZ, ENC_MIN_SZ, ENC_MAX_SZ,
    SUBKEY_CMD_MAX_SZ, SUBKEY_RSP_MAX_SZ, MEASUREMENT_CMD_MAX_SZ,
    MEASUREMENT_RSP_MAX_SZ, CERTIFICATE_RSP_MAX_SZ, SHA384_SIZE,
    RANDOM_NUMBER_SIZE in *.

(** Closing a goal that only depends on integer comparisons. *)
Ltac bool_lia :=
  unfold_bounds; reflect_tests;
  repeat match goal with
         | |- context [?a <=? ?b] => destruct (Z.leb_spec a b)
         end;
  cbn [negb andb orb]; intros;
  first [reflexivity | lia | discriminate | congruence].

(** * Properties *)

(** ** Basic facts *)

Lemma BIT_inj (a b : Z) : 0 <= a -> 0 <= b -> BIT a = BIT b -> a = b.
Proof.
  unfold BIT. intros Ha Hb. rewrite !Z.shiftl_1_l. apply Z.pow_inj_r; lia.
Qed.

Lemma field_eqb_refl (f : field) : field_eqb f f = true.
Proof. destruct f; cbn; try reflexivity; apply Nat.eqb_refl. Qed.

Lemma set_same (f : field) (v : Z) (d : intel_fcs_dev_ioctl) :
  set f v d f = v.
Proof. unfold set. rewrite field_eqb_refl. reflexivity. Qed.

Lemma error_bit_distinct (hdr : svc_header) :
  svc_header_ok hdr = true ->
  BIT SVC_STATUS_ERROR <> BIT SVC_STATUS_OK
  /\ BIT SVC_STATUS_ERROR <> BIT SVC_STATUS_COMPLETED.
Proof.
  intro hdr_ok.
  unfold svc_header_ok in hdr_ok. cbn [forallb] in hdr_ok.
  repeat (apply andb_prop in hdr_ok; destruct hdr_ok as [hdr_ok ?]).
  repeat match goal with
         | H : negb _ = true |- _ => apply negb_true_iff, Z.eqb_neq in H
         | H : (_ <=? _) = true |- _ => apply Z.leb_le in H
         | H : (_ <? _) = true |- _ => apply Z.ltb_lt in H
         | H : (_ && _) = true |- _ => apply andb_prop in H; destruct H
         end.
  split; intro E; apply BIT_inj in E; lia.
Qed.




(** ** Symbolic execution with the record projections computed *)

(** Symbolic execution with every record projection computed at once. *)
Ltac cbv_driver :=
  cbv beta iota zeta delta
    [run_ioctl fcs_ioctl initial_world world_of returned
     case_VALIDATION_REQUEST case_SEND_CERTIFICATE
     case_COUNTER_SET_PREAUTHORIZED case_RANDOM_NUMBER_GEN
     case_GET_PROVISION_DATA case_DATA_ENCRYPTION case_DATA_DECRYPTION
     case_PSGSIGMA_TEARDOWN case_CHIP_ID case_ATTESTATION_SUBKEY
     case_ATTESTATION_MEASUREMENT case_ATTESTATION_GET_CERTIFICATE
     case_ATTESTATION_CERTIFICATE_RELOAD case_GET_ROM_PATCH_SHA384
     fcs_request_service fcs_close_services register_cb succeeded
     bind pure return_ emit get_priv put_priv modify_priv oops deref
     devm_kzalloc_data devm_kzalloc_msg copy_from_user_arg request_firmware
     copy_from_user_payload copy_to_user_payload copy_to_user_arg
     memcpy_from_kbuf stratix10_svc_allocate_memory stratix10_svc_free_memory
     stratix10_svc_done stratix10_svc_send mutex_lock mutex_unlock
     reinit_completion wait_for_completion_timeout call_receive_cb
     w_priv w_trace w_allocs w_sends w_inflight
     receive_cb completion lock status kbuf size cid_low cid_high
     set_receive_cb set_completion set_lock set_status set_kbuf set_size
     set_cid_low set_cid_high negb andb orb].

Ltac exec_driver :=
  cbv_driver;
  repeat (progress (change (- EINVAL =? 0) with false;
                    change (- ETIMEDOUT =? 0) with false;
                    change (1 =? 0) with false;
                    change (0 =? 0) with true);
          cbv_driver);
  cbn [app service_returns sent copied_back alloc_sizes
       sent_payload_lengths].

Ltac exec_paths := repeat (exec_driver; try split_path).

(** Computing record projections and list observations in the context. *)
Ltac simpl_state :=
  cbn [w_priv w_trace w_allocs w_sends w_inflight
       receive_cb completion lock status kbuf size cid_low cid_high
       load_u32 world_of] in *.

(** Setting the statement about a run aside while the run is split into
    paths. *)
Ltac hide_run C :=
  match goal with
  | |- context [run_ioctl ?e ?c ?p] =>
      match goal with
      | |- ?G =>
          let G' := eval pattern (run_ioctl e c p) in G in
          match G' with
          | ?F _ => pose (C := F); change (C (run_ioctl e c p))
          end
      end
  end.

(** A statement about what a call returns, as one case per outcome. *)
Lemma returned_elim (R : result Z) (P : Z -> world -> Prop) :
  match R with
  | Next v w | Exit v w => P v w
  | Oops _ | Hang _ => True
  end ->
  forall r w, returned R = Some (r, w) -> P r w.
Proof.
  destruct R; cbn [returned]; intros HP r' w' H;
    first [discriminate H | injection H as <- <-; exact HP].
Qed.

Ltac elim_returned r w C :=
  match goal with
  | |- returned ?R = Some (r, w) -> ?G =>
      let G' := eval pattern r, w in G in
      match G' with
      | ?F r w => pose (C := F); refine (returned_elim R C _ r w)
      end
  end.

(** What the callbacks leave alone. *)
Lemma fcs_vab_callback_frame {hdr : svc_header} (priv priv' : intel_fcs_priv)
    (data : stratix10_svc_cb_data) :
  fcs_vab_callback priv data = Some priv' ->
  kbuf priv' = kbuf priv /\ size priv' = size priv
  /\ cid_low priv' = cid_low priv /\ cid_high priv' = cid_high priv
  /\ lock priv' = lock priv /\ receive_cb priv' = receive_cb priv.
Proof.
  unfold fcs_vab_callback.
  destruct (cb_status data =? BIT SVC_STATUS_ERROR);
    [destruct (load_u32 (kaddr1 data)); cbn [opt_bind];
     [| intro H; discriminate H] |];
    repeat match goal with
           | |- context [if ?c then _ else _] => destruct c
           end;
    cbn [opt_bind]; intros [= <-]; cbn; auto 10.
Qed.

Lemma fcs_chipid_callback_frame {hdr : svc_header}
    (priv priv' : intel_fcs_priv) (data : stratix10_svc_cb_data) :
  fcs_chipid_callback priv data = Some priv' ->
  kbuf priv' = kbuf priv /\ size priv' = size priv
  /\ lock priv' = lock priv /\ receive_cb priv' = receive_cb priv.
Proof.
  unfold fcs_chipid_callback.
  destruct (cb_status data =? BIT SVC_STATUS_OK);
    [destruct (load_u32 (kaddr2 data)); cbn [opt_bind];
     [destruct (load_u32 (kaddr3 data)); cbn [opt_bind] |];
     try (intro H; discriminate H)
    | destruct (cb_status data =? BIT SVC_STATUS_ERROR);
      [destruct (load_u32 (kaddr1 data)); cbn [opt_bind];
       try (intro H; discriminate H) |] ];
    cbn [opt_bind]; intros [= <-]; cbn; auto 10.
Qed.


(** Using them on the callbacks a path has run. *)
Ltac use_frames :=
  repeat match goal with
         | H : fcs_vab_callback _ _ = Some _ |- _ =>
             apply fcs_vab_callback_frame in H;
             destruct H as (? & ? & ? & ? & ? & ?)
         | H : fcs_chipid_callback _ _ = Some _ |- _ =>
             apply fcs_chipid_callback_frame in H;
             destruct H as (? & ? & ? & ?)
         end;
  simpl_state; subst.

(** ** The callbacks *)

Section CallbackProperties.
Context {hdr : svc_header}.

(** C7. The data callback: on OK or COMPLETED the stored status is 0 and
    the result pointer and length are those of the notification's second
    and third words; on ERROR the stored status is the error code behind the
    first word and the pointer and length (0 when the third word is NULL)
    are kept; on any other status the stored status is -EINVAL with a NULL
    result pointer and length 0.  Every branch signals the completion
    once.  (The words the branch dereferences are taken to be valid
    pointers.) *)
Theorem fcs_data_callback_shape (priv : intel_fcs_priv)
    (data : stratix10_svc_cb_data) :
  svc_header_ok hdr = true ->
  (cb_status data = BIT SVC_STATUS_OK
   \/ cb_status data = BIT SVC_STATUS_COMPLETED ->
   forall len, load_u32 (kaddr3 data) = Some len ->
   exists priv', fcs_data_callback priv data = Some priv'
     /\ status priv' = 0 /\ kbuf priv' = kaddr2 data /\ size priv' = len
     /\ completion priv' = S (completion priv))
  /\ (cb_status data = BIT SVC_STATUS_ERROR ->
      forall err, load_u32 (kaddr1 data) = Some err ->
      forall len,
        (kaddr3 data = None /\ len = 0) \/ load_u32 (kaddr3 data) = Some len ->
      exists priv', fcs_data_callback priv data = Some priv'
        /\ status priv' = err /\ kbuf priv' = kaddr2 data /\ size priv' = len
        /\ completion priv' = S (completion priv))
  /\ (cb_status data <> BIT SVC_STATUS_OK ->
      cb_status data <> BIT SVC_STATUS_COMPLETED ->
      cb_status data <> BIT SVC_STATUS_ERROR ->
      exists priv', fcs_data_callback priv data = Some priv'
        /\ status priv' = u32 (- EINVAL) /\ kbuf priv' = None
        /\ size priv' = 0
        /\ completion priv' = S (completion priv)).
Proof.
  intro hdr_ok.
  destruct (error_bit_distinct hdr hdr_ok) as [Hne_ok Hne_done].
  unfold fcs_data_callback.
  split; [| split].
  - intros Hst len Hlen.
    replace ((cb_status data =? BIT SVC_STATUS_OK)
             || (cb_status data =? BIT SVC_STATUS_COMPLETED)) with true.
    + rewrite Hlen. cbn. eexists; split; [reflexivity |]. cbn. auto.
    + symmetry. apply orb_true_iff.
      destruct Hst as [-> | ->]; [left | right]; apply Z.eqb_refl.
  - intros Hst err Herr len Hlen.
    rewrite Hst.
    destruct (Z.eqb_spec (BIT SVC_STATUS_ERROR) (BIT SVC_STATUS_OK));
      [contradiction |].
    destruct (Z.eqb_spec (BIT SVC_STATUS_ERROR) (BIT SVC_STATUS_COMPLETED));
      [contradiction |].
    rewrite Z.eqb_refl. cbn [orb]. rewrite Herr. cbn [opt_bind].
    destruct Hlen as [[Hnull ->] | Hlen].
    + rewrite Hnull. cbn. eexists; split; [reflexivity |]. cbn. auto.
    + destruct (kaddr3 data) as [ws |] eqn:Hk; [| discriminate Hlen].
      rewrite Hlen. cbn. eexists; split; [reflexivity |]. cbn. auto.
  - intros H1 H2 H3.
    apply Z.eqb_neq in H1, H2, H3. rewrite H1, H2, H3. cbn.
    eexists; split; [reflexivity |]. cbn. auto.
Qed.

(** C6, as amended.  The attestation callback stores the channel's status
    word unchanged when that word is neither OK nor ERROR (and then leaves
    the result pointer and length alone); on OK it stores 0 with the
    result pointer and length of the notification, and on ERROR the error
    code behind the first word. *)
Theorem fcs_attestation_callback_shape (priv : intel_fcs_priv)
    (data : stratix10_svc_cb_data) :
  svc_header_ok hdr = true ->
  (cb_status data <> BIT SVC_STATUS_OK ->
   cb_status data <> BIT SVC_STATUS_ERROR ->
   exists priv', fcs_attestation_callback priv data = Some priv'
     /\ status priv' = cb_status data
     /\ kbuf priv' = kbuf priv /\ size priv' = size priv
     /\ completion priv' = S (completion priv))
  /\ (cb_status data = BIT SVC_STATUS_OK ->
      forall len, load_u32 (kaddr3 data) = Some len ->
      exists priv', fcs_attestation_callback priv data = Some priv'
        /\ status priv' = 0 /\ kbuf priv' = kaddr2 data /\ size priv' = len
        /\ completion priv' = S (completion priv))
  /\ (cb_status data = BIT SVC_STATUS_ERROR ->
      forall err, load_u32 (kaddr1 data) = Some err ->
      exists priv', fcs_attestation_callback priv data = Some priv'
        /\ status priv' = err
        /\ kbuf priv' = kbuf priv /\ size priv' = size priv
        /\ completion priv' = S (completion priv)).
Proof.
  intro hdr_ok.
  destruct (error_bit_distinct hdr hdr_ok) as [Hne_ok _].
  unfold fcs_attestation_callback.
  split; [| split].
  - intros H1 H2. apply Z.eqb_neq in H1, H2. rewrite H1, H2. cbn.
    eexists; split; [reflexivity |]. cbn. auto.
  - intros Hst len Hlen. rewrite Hst, Z.eqb_refl, Hlen. cbn.
    eexists; split; [reflexivity |]. cbn. auto.
  - intros Hst err Herr. rewrite Hst.
    destruct (Z.eqb_spec (BIT SVC_STATUS_ERROR) (BIT SVC_STATUS_OK));
      [contradiction |].
    rewrite Z.eqb_refl, Herr. cbn.
    eexists; split; [reflexivity |]. cbn. auto.
Qed.

End CallbackProperties.

(** The data callback on three notifications of the mainline header: OK,
    ERROR and an unknown status word. *)
Lemma fcs_data_callback_shape_witness :
  (exists priv', @fcs_data_callback stratix10_header probed_priv
                   (notify (BIT 0) 32) = Some priv'
     /\ status priv' = 0 /\ kbuf priv' = kaddr2 (notify (BIT 0) 32)
     /\ size priv' = 32 /\ completion priv' = 1%nat)
  /\ (exists priv', @fcs_data_callback stratix10_header probed_priv
                      (notify (BIT 5) 16) = Some priv'
        /\ status priv' = 0x3ff /\ kbuf priv' = kaddr2 (notify (BIT 5) 16)
        /\ size priv' = 16 /\ completion priv' = 1%nat)
  /\ (exists priv', @fcs_data_callback stratix10_header probed_priv
                      (notify 6 16) = Some priv'
        /\ status priv' = 4294967274 /\ kbuf priv' = None
        /\ size priv' = 0 /\ completion priv' = 1%nat).
Proof.
  split; [| split].
  - apply (proj1 (@fcs_data_callback_shape stratix10_header probed_priv
                    (notify (BIT 0) 32) eq_refl)).
    + left; reflexivity.
    + reflexivity.
  - apply (proj1 (proj2 (@fcs_data_callback_shape stratix10_header
                           probed_priv (notify (BIT 5) 16)
                           eq_refl))).
    + reflexivity.
    + reflexivity.
    + right; reflexivity.
  - apply (proj2 (proj2 (@fcs_data_callback_shape stratix10_header
                           probed_priv (notify 6 16)
                           eq_refl))).
    + vm_compute; discriminate.
    + vm_compute; discriminate.
    + vm_compute; discriminate.
Defined.

(** C6, as stated, fails: the OK status word (bit 0, the value 1) is stored
    as 0, not as the word the channel delivered. *)
Lemma attestation_ok_status_not_verbatim :
  exists priv',
    @fcs_attestation_callback stratix10_header probed_priv
      (notify (BIT 0) 32) = Some priv'
    /\ cb_status (notify (BIT 0) 32) = 1
    /\ status priv' = 0
    /\ status priv' <> cb_status (notify (BIT 0) 32).
Proof.
  eexists. split; [reflexivity |]. cbn. repeat split. discriminate.
Qed.

(** The attestation callback on a BUSY notification: the word 16 is
    stored as it came. *)
Lemma fcs_attestation_callback_shape_witness :
  exists priv',
    @fcs_attestation_callback stratix10_header probed_priv
      (notify (BIT 4) 0) = Some priv'
    /\ status priv' = 16
    /\ kbuf priv' = None /\ size priv' = 0
    /\ completion priv' = 1%nat.
Proof.
  apply (proj1 (@fcs_attestation_callback_shape stratix10_header probed_priv
                  (notify (BIT 4) 0) eq_refl)).
  - vm_compute; discriminate.
  - vm_compute; discriminate.
Defined.

(** ** fcs_request_service *)

Section ServiceProperties.
Context {hdr : svc_header}.
Variable e : env.

(** The mutex does not nest: a call made while it is held never returns. *)
Lemma fcs_request_service_blocks (msg : stratix10_svc_client_msg)
    (timeout : Z) (w : world) :
  lock (w_priv w) = true -> fcs_request_service e msg timeout w = Hang w.
Proof.
  intro Hl. unfold fcs_request_service, bind, mutex_lock. rewrite Hl.
  reflexivity.
Qed.

(** Whenever the call returns, the mutex is held afterwards exactly when
    the channel refused the message. *)
Lemma fcs_request_service_lock (msg : stratix10_svc_client_msg)
    (timeout ret : Z) (w w' : world) :
  lock (w_priv w) = false ->
  fcs_request_service e msg timeout w = Next ret w' ->
  lock (w_priv w') = negb (send_ret (service e (w_sends w)) =? 0).
Proof.
  destruct w as [[pcb pdone plock pst pkbuf psize plo phi] wt wa ws wi].
  cbn [w_priv lock w_sends]. intros ->.
  run_paths; intros H; try discriminate H; inversion H; subst; reflexivity.
Qed.

(** C2 fails on the rejection path: when [stratix10_svc_send] refuses the
    message, [fcs_request_service] returns -EINVAL with the mutex still
    held. *)
Theorem fcs_request_service_rejection_keeps_lock
    (msg : stratix10_svc_client_msg) (timeout : Z) (w : world) :
  lock (w_priv w) = false ->
  send_ret (service e (w_sends w)) <> 0 ->
  exists w',
    fcs_request_service e msg timeout w = Next (- EINVAL) w'
    /\ lock (w_priv w') = true.
Proof.
  destruct w as [[pcb pdone plock pst pkbuf psize plo phi] wt wa ws wi].
  cbn [w_priv lock w_sends]. intros -> Hrej. apply Z.eqb_neq in Hrej.
  unfold_driver. rewrite Hrej. unfold_driver.
  eexists. split; reflexivity.
Qed.

End ServiceProperties.

(** A refused message ([stratix10_svc_send] answers -EBUSY, -16) on a
    freshly probed device. *)
Lemma fcs_request_service_rejection_keeps_lock_witness :
  exists w',
    @fcs_request_service stratix10_header
      (with_service (fun _ => {| send_ret := -16; notification := None |})
                    env_ok)
      zeroed_msg 2000 (initial_world probed_priv) = Next (- EINVAL) w'
    /\ lock (w_priv w') = true.
Proof.
  apply (@fcs_request_service_rejection_keeps_lock stratix10_header).
  - reflexivity.
  - cbn. discriminate.
Defined.

(** ** fcs_ioctl *)

Section IoctlProperties.
Context {hdr : svc_header}.

(** C10, as amended.  An ioctl whose command is none of the fourteen
    supported ones calls neither the buffer pool nor the channel and leaves
    the device state alone; it returns 0 when the two request structures
    could be allocated, and -ENOMEM otherwise. *)
Theorem unsupported_command (e : env) (code : Z) (p : intel_fcs_priv) :
  run_ioctl e (INTEL_FCS_DEV_other code) p =
    if kzalloc_data e && kzalloc_msg e then Next 0 (initial_world p)
    else Exit (- ENOMEM) (initial_world p).
Proof.
  unfold run_ioctl, fcs_ioctl, devm_kzalloc_data, devm_kzalloc_msg, bind,
    pure, return_.
  destruct (kzalloc_data e), (kzalloc_msg e); reflexivity.
Qed.

(** A request that breaks a static bound leaves at the size test. *)
Lemma violation_exits_at_once (e : env) (cmd : ioctl_cmd)
    (p : intel_fcs_priv) (d : intel_fcs_dev_ioctl) :
  kzalloc_data e = true -> kzalloc_msg e = true -> user_arg e = Some d ->
  catalog_violation cmd d = Some true ->
  run_ioctl e cmd p = Exit (- EFAULT) (initial_world p).
Proof.
  intros Hd Hm Ha Hv.
  destruct cmd; try discriminate Hv; injection Hv as Hv;
    unfold run_ioctl, fcs_ioctl, devm_kzalloc_data, devm_kzalloc_msg,
      case_DATA_ENCRYPTION, case_DATA_DECRYPTION, case_ATTESTATION_SUBKEY,
      case_ATTESTATION_MEASUREMENT, case_ATTESTATION_GET_CERTIFICATE,
      copy_from_user_arg, bind, pure, return_;
    rewrite Hd, Hm, Ha; cbn [negb];
    repeat match goal with
           | |- (if ?b then _ else _) _ = _ =>
               destruct b eqn:?; [reflexivity |]
           end;
    exfalso; revert Hv; bool_lia.
Qed.

(** A request within the bounds goes on to ask for its first buffer. *)
Lemma no_violation_allocates (e : env) (cmd : ioctl_cmd)
    (p : intel_fcs_priv) (d : intel_fcs_dev_ioctl) :
  kzalloc_data e = true -> kzalloc_msg e = true -> user_arg e = Some d ->
  catalog_violation cmd d = Some false ->
  alloc_sizes (w_trace (world_of (run_ioctl e cmd p))) <> [].
Proof.
  intros Hd Hm Ha Hv. destruct p as [pcb pdone plock pst pkbuf psize plo phi].
  destruct cmd; try discriminate Hv; injection Hv as Hv;
    run_paths; try discriminate;
    exfalso; revert Hv; injection Ha as <-; bool_lia.
Qed.

(** C5, as amended.  For the five operations with static size bounds, a
    request with an out-of-range size is rejected with -EFAULT at the size
    test: nothing was allocated, nothing was sent, the device state is
    untouched. *)
Theorem size_violation_rejected_before_allocation (e : env)
    (cmd : ioctl_cmd) (p : intel_fcs_priv) (d : intel_fcs_dev_ioctl) :
  kzalloc_data e = true -> kzalloc_msg e = true -> user_arg e = Some d ->
  catalog_violation cmd d = Some true ->
  exists w,
    run_ioctl e cmd p = Exit (- EFAULT) w
    /\ w_trace w = [] /\ w_priv w = p
    /\ count is_alloc_attempt (w_trace w) = 0%nat
    /\ count is_send (w_trace w) = 0%nat.
Proof.
  intros Hd Hm Ha Hv. exists (initial_world p).
  split; [apply (violation_exits_at_once e cmd p d); assumption |].
  repeat split.
Qed.

(** C4, as amended.  The driver enforces exactly the bounds of
    [catalog_violation]: encryption source 72..32712 and destination
    120..32760, decryption source 120..32760 and destination 72..32712,
    sub-key command at most 4092 and response at most 820, measurement
    command and response at most 4092, certificate response at most 4096; a
    request is rejected at the size test if and only if it breaks one of
    them.  The random-number request uses one 32-byte buffer and the
    ROM-patch-digest request one 48-byte buffer, whatever the caller
    passes. *)
Theorem size_bounds_enforced (e : env) (cmd : ioctl_cmd)
    (p : intel_fcs_priv) (d : intel_fcs_dev_ioctl) :
  kzalloc_data e = true -> kzalloc_msg e = true -> user_arg e = Some d ->
  (forall v, catalog_violation cmd d = Some v ->
     (run_ioctl e cmd p = Exit (- EFAULT) (initial_world p) <-> v = true))
  /\ (cmd = INTEL_FCS_DEV_RANDOM_NUMBER_GEN ->
      alloc_sizes (w_trace (world_of (run_ioctl e cmd p))) = [32]
      /\ forall n, In n (sent_payload_lengths
                           (w_trace (world_of (run_ioctl e cmd p)))) ->
                   n = 32)
  /\ (cmd = INTEL_FCS_DEV_GET_ROM_PATCH_SHA384 ->
      alloc_sizes (w_trace (world_of (run_ioctl e cmd p))) = [48]
      /\ forall n, In n (sent_payload_lengths
                           (w_trace (world_of (run_ioctl e cmd p)))) ->
                   n = 48).
Proof.
  intros Hd Hm Ha. split; [| split].
  - intros [|] Hv; split; intro H; try reflexivity.
    + apply (violation_exits_at_once e cmd p d); assumption.
    + exfalso.
      apply (no_violation_allocates e cmd p d Hd Hm Ha Hv).
      rewrite H. reflexivity.
    + discriminate H.
  - intros ->. destruct p as [pcb pdone plock pst pkbuf psize plo phi].
    run_paths; try discriminate; split; try reflexivity;
      cbn [In payload_length set_payload_length set_payload set_command];
      intros n Hn; intuition (subst; reflexivity).
  - intros ->. destruct p as [pcb pdone plock pst pkbuf psize plo phi].
    run_paths; try discriminate; split; try reflexivity;
      cbn [In payload_length set_payload_length set_payload set_command];
      intros n Hn; intuition (subst; reflexivity).
Qed.

End IoctlProperties.

(** The bounds at work on the mainline header: a 128-byte decryption
    source is not rejected at the size test, a 71-byte one is. *)
Lemma size_bounds_enforced_witness :
  @run_ioctl stratix10_header (env_decrypt 128)
    INTEL_FCS_DEV_DATA_DECRYPTION probed_priv
  <> Exit (- EFAULT) (initial_world probed_priv)
  /\ @run_ioctl stratix10_header (env_decrypt 71)
       INTEL_FCS_DEV_DATA_DECRYPTION probed_priv
     = Exit (- EFAULT) (initial_world probed_priv).
Proof.
  split.
  - intro H.
    apply (proj1 (@size_bounds_enforced stratix10_header (env_decrypt 128)
                    INTEL_FCS_DEV_DATA_DECRYPTION probed_priv
                    (set f_d_src_size 128 sample_arg)
                    eq_refl eq_refl eq_refl) false eq_refl) in H.
    discriminate H.
  - apply (proj1 (@size_bounds_enforced stratix10_header (env_decrypt 71)
                    INTEL_FCS_DEV_DATA_DECRYPTION probed_priv
                    (set f_d_src_size 71 sample_arg)
                    eq_refl eq_refl eq_refl) true eq_refl).
    reflexivity.
Defined.

(** C4, as stated, fails on the decryption source: 100 bytes lie within
    72..32712 and the request is rejected at the size test, while 32760
    bytes lie outside and the request goes on to allocate its buffers. *)
Lemma decryption_source_bound_is_not_72_32712 :
  in_range 72 32712 100 = true
  /\ @run_ioctl stratix10_header (env_decrypt 100)
       INTEL_FCS_DEV_DATA_DECRYPTION probed_priv
     = Exit (- EFAULT) (initial_world probed_priv)
  /\ in_range 72 32712 32760 = false
  /\ alloc_sizes
       (w_trace (world_of (@run_ioctl stratix10_header (env_decrypt 32760)
                             INTEL_FCS_DEV_DATA_DECRYPTION probed_priv)))
     = [32760; 32712; 64].
Proof. repeat split. Qed.

(** A 71-byte decryption source on the mainline header. *)
Lemma size_violation_rejected_before_allocation_witness :
  exists w,
    @run_ioctl stratix10_header (env_decrypt 71)
      INTEL_FCS_DEV_DATA_DECRYPTION probed_priv = Exit (- EFAULT) w
    /\ w_trace w = [] /\ w_priv w = probed_priv
    /\ count is_alloc_attempt (w_trace w) = 0%nat
    /\ count is_send (w_trace w) = 0%nat.
Proof.
  apply (@size_violation_rejected_before_allocation stratix10_header
           (env_decrypt 71) INTEL_FCS_DEV_DATA_DECRYPTION probed_priv
           (set f_d_src_size 71 sample_arg));
    reflexivity.
Defined.

(** C5, as stated, fails on the error code: the 71-byte decryption source
    is rejected with -EFAULT (-14), which is not -EINVAL (-22), the code
    the driver uses for an invalid parameter. *)
Lemma decryption_size_71_is_not_EINVAL :
  exists r w,
    returned (@run_ioctl stratix10_header (env_decrypt 71)
                INTEL_FCS_DEV_DATA_DECRYPTION probed_priv) = Some (r, w)
    /\ r = -14 /\ r <> - EINVAL /\ w_trace w = [].
Proof.
  eexists. eexists. split; [reflexivity |].
  repeat split. discriminate.
Qed.

(** C10, as stated, fails twice.  When the structure for the request
    cannot be allocated the call returns -ENOMEM, not 0.  And the switch
    has fourteen cases: whichever thirteen operations are meant, some
    command outside them is a supported one and reaches the channel. *)
Lemma unsupported_command_claim_fails :
  (exists w,
     @run_ioctl stratix10_header (with_kzalloc_data false env_ok)
       (INTEL_FCS_DEV_other 0) probed_priv = Exit (- ENOMEM) w
     /\ - ENOMEM <> 0)
  /\ (forall l : list ioctl_cmd,
        length l = 13%nat ->
        exists cmd,
          ~ In cmd l
          /\ sent (w_trace (world_of (@run_ioctl stratix10_header env_ok cmd
                                         probed_priv))) <> []).
Proof.
  split.
  - eexists. split; [vm_compute; reflexivity | discriminate].
  - intros l Hlen.
    destruct (Forall_Exists_dec (fun c => In c l)
                (fun c => in_dec ioctl_cmd_eq_dec c l) supported_cmds)
      as [Hall | Hex].
    + exfalso.
      assert (Hincl : incl supported_cmds l)
        by (intros c Hc; revert c Hc; apply Forall_forall; exact Hall).
      apply NoDup_incl_length in Hincl.
      * cbn in Hincl. lia.
      * unfold supported_cmds.
        repeat (constructor; [cbn; intuition discriminate |]).
        constructor.
    + apply Exists_exists in Hex. destruct Hex as [cmd [Hin Hnot]].
      exists cmd. split; [exact Hnot |].
      cbn in Hin.
      repeat (destruct Hin as [<- | Hin]; [vm_compute; discriminate |]).
      contradiction.
Qed.

(** ** Two-phase operations, attestation responses, buffer balance *)

Section ProtocolProperties.
Context {hdr : svc_header}.






End ProtocolProperties.





(** C1 fails on several exit paths.  A validation request whose final
    copy_to_user fails frees its buffer twice; a sub-key request whose
    second allocation fails, or whose final copy_to_user fails, returns
    without freeing what it allocated; a ROM-patch-digest request that is
    answered with more than 48 bytes frees its buffer twice. *)
Theorem unbalanced_exit_paths :
  (exists w,
     @run_ioctl stratix10_header env_copy_back_fails
       INTEL_FCS_DEV_VALIDATION_REQUEST probed_priv = Next (- EFAULT) w
     /\ allocated (w_trace w) = [0%nat]
     /\ count (is_free_of 0) (w_trace w) = 2%nat
     /\ balanced (w_trace w) = false)
  /\ (exists w,
        @run_ioctl stratix10_header env_second_alloc_fails
          INTEL_FCS_DEV_ATTESTATION_SUBKEY probed_priv = Exit (- ENOMEM) w
        /\ allocated (w_trace w) = [0%nat]
        /\ count is_free (w_trace w) = 0%nat
        /\ balanced (w_trace w) = false)
  /\ (exists w,
        @run_ioctl stratix10_header env_copy_back_fails
          INTEL_FCS_DEV_ATTESTATION_SUBKEY probed_priv = Exit (- EFAULT) w
        /\ allocated (w_trace w) = [0%nat; 1%nat]
        /\ count is_free (w_trace w) = 0%nat
        /\ balanced (w_trace w) = false)
  /\ (exists w,
        @run_ioctl stratix10_header env_oversize
          INTEL_FCS_DEV_GET_ROM_PATCH_SHA384 probed_priv = Next (- EFAULT) w
        /\ allocated (w_trace w) = [0%nat]
        /\ count (is_free_of 0) (w_trace w) = 2%nat
        /\ balanced (w_trace w) = false).
Proof.
  split; [| split; [| split]]; eexists;
    (split; [vm_compute; reflexivity |]);
    (split; [vm_compute; reflexivity |]);
    (split; vm_compute; reflexivity).
Qed.

(** * Further properties of the driver *)

(** ** The status-only and identifier callbacks *)

Lemma status_bits_distinct (hdr : svc_header) :
  svc_header_ok hdr = true ->
  BIT SVC_STATUS_BUSY <> BIT SVC_STATUS_ERROR
  /\ BIT SVC_STATUS_INVALID_PARAM <> BIT SVC_STATUS_ERROR
  /\ BIT SVC_STATUS_INVALID_PARAM <> BIT SVC_STATUS_BUSY
  /\ BIT SVC_STATUS_OK <> BIT SVC_STATUS_ERROR
  /\ BIT SVC_STATUS_OK <> BIT SVC_STATUS_BUSY
  /\ BIT SVC_STATUS_OK <> BIT SVC_STATUS_INVALID_PARAM.
Proof.
  intro hdr_ok.
  unfold svc_header_ok in hdr_ok. cbn [forallb] in hdr_ok.
  repeat (apply andb_prop in hdr_ok; destruct hdr_ok as [hdr_ok ?]).
  repeat match goal with
         | H : negb _ = true |- _ => apply negb_true_iff, Z.eqb_neq in H
         | H : (_ <=? _) = true |- _ => apply Z.leb_le in H
         | H : (_ <? _) = true |- _ => apply Z.ltb_lt in H
         | H : (_ && _) = true |- _ => apply andb_prop in H; destruct H
         end.
  repeat split; intro E; apply BIT_inj in E; lia.
Qed.

Section MoreCallbackProperties.
Context {hdr : svc_header}.

(** X1.  The status-only callback maps the channel's status word to an
    errno-style status: ERROR gives the error code behind the first
    address, and is the only status on which that address is read (a NULL
    first address then has no result); BUSY gives -ETIMEDOUT, OK gives 0,
    INVALID_PARAM and every other word give -EINVAL, whatever the three
    addresses are.  In each case the result pointer, the length, the chip
    identifier and the mutex are left alone and the completion is
    signalled once. *)
Theorem fcs_vab_callback_status (priv : intel_fcs_priv)
    (data : stratix10_svc_cb_data) :
  svc_header_ok hdr = true ->
  (cb_status data = BIT SVC_STATUS_ERROR ->
   match load_u32 (kaddr1 data) with
   | Some err =>
       fcs_vab_callback priv data
       = Some (complete (set_status err priv))
   | None => fcs_vab_callback priv data = None
   end)
  /\ (cb_status data = BIT SVC_STATUS_BUSY ->
      fcs_vab_callback priv data
      = Some (complete (set_status (u32 (- ETIMEDOUT)) priv)))
  /\ (cb_status data = BIT SVC_STATUS_OK ->
      fcs_vab_callback priv data = Some (complete (set_status 0 priv)))
  /\ (cb_status data <> BIT SVC_STATUS_ERROR ->
      cb_status data <> BIT SVC_STATUS_BUSY ->
      cb_status data <> BIT SVC_STATUS_OK ->
      fcs_vab_callback priv data
      = Some (complete (set_status (u32 (- EINVAL)) priv)))
  /\ (forall st,
        status (complete (set_status st priv)) = st
        /\ kbuf (complete (set_status st priv)) = kbuf priv
        /\ size (complete (set_status st priv)) = size priv
        /\ cid_low (complete (set_status st priv)) = cid_low priv
        /\ cid_high (complete (set_status st priv)) = cid_high priv
        /\ lock (complete (set_status st priv)) = lock priv
        /\ completion (complete (set_status st priv))
           = S (completion priv)).
Proof.
  intros hdr_ok.
  destruct (status_bits_distinct hdr hdr_ok)
    as (Hbe & Hie & Hib & Hoe & Hob & Hoi).
  unfold fcs_vab_callback.
  split; [| split; [| split; [| split]]].
  - intros ->. rewrite Z.eqb_refl.
    destruct (load_u32 (kaddr1 data)); reflexivity.
  - intros ->.
    destruct (Z.eqb_spec (BIT SVC_STATUS_BUSY) (BIT SVC_STATUS_ERROR));
      [contradiction |].
    rewrite Z.eqb_refl. reflexivity.
  - intros ->.
    destruct (Z.eqb_spec (BIT SVC_STATUS_OK) (BIT SVC_STATUS_ERROR));
      [contradiction |].
    destruct (Z.eqb_spec (BIT SVC_STATUS_OK) (BIT SVC_STATUS_BUSY));
      [contradiction |].
    destruct (Z.eqb_spec (BIT SVC_STATUS_OK) (BIT SVC_STATUS_INVALID_PARAM));
      [contradiction |].
    rewrite Z.eqb_refl. reflexivity.
  - intros He Hb Ho. apply Z.eqb_neq in He, Hb, Ho.
    rewrite He, Hb, Ho.
    destruct (cb_status data =? BIT SVC_STATUS_INVALID_PARAM); reflexivity.
  - intro st. cbn. auto 10.
Qed.

(** X2.  The identifier callback: on OK the stored status is 0 and the two
    identifier halves are the words behind the second and third address;
    on ERROR the stored status is the error code and the identifier is
    kept; on any other word the status is stored as it came and the
    identifier is kept. *)
Theorem fcs_chipid_callback_shape (priv : intel_fcs_priv)
    (data : stratix10_svc_cb_data) :
  svc_header_ok hdr = true ->
  (cb_status data = BIT SVC_STATUS_OK ->
   forall lo hi,
     load_u32 (kaddr2 data) = Some lo -> load_u32 (kaddr3 data) = Some hi ->
     exists priv', fcs_chipid_callback priv data = Some priv'
       /\ status priv' = 0 /\ cid_low priv' = lo /\ cid_high priv' = hi
       /\ completion priv' = S (completion priv))
  /\ (cb_status data = BIT SVC_STATUS_ERROR ->
      forall err, load_u32 (kaddr1 data) = Some err ->
      exists priv', fcs_chipid_callback priv data = Some priv'
        /\ status priv' = err
        /\ cid_low priv' = cid_low priv /\ cid_high priv' = cid_high priv
        /\ completion priv' = S (completion priv))
  /\ (cb_status data <> BIT SVC_STATUS_OK ->
      cb_status data <> BIT SVC_STATUS_ERROR ->
      exists priv', fcs_chipid_callback priv data = Some priv'
        /\ status priv' = cb_status data
        /\ cid_low priv' = cid_low priv /\ cid_high priv' = cid_high priv
        /\ completion priv' = S (completion priv)).
Proof.
  intro hdr_ok.
  destruct (status_bits_distinct hdr hdr_ok) as (_ & _ & _ & Hoe & _).
  unfold fcs_chipid_callback.
  split; [| split].
  - intros Hst lo hi Hlo Hhi. rewrite Hst, Z.eqb_refl, Hlo, Hhi. cbn.
    eexists; split; [reflexivity |]. cbn. auto.
  - intros Hst err Herr. rewrite Hst.
    destruct (Z.eqb_spec (BIT SVC_STATUS_ERROR) (BIT SVC_STATUS_OK));
      [congruence |].
    rewrite Z.eqb_refl, Herr. cbn.
    eexists; split; [reflexivity |]. cbn. auto.
  - intros H1 H2. apply Z.eqb_neq in H1, H2. rewrite H1, H2. cbn.
    eexists; split; [reflexivity |]. cbn. auto.
Qed.

End MoreCallbackProperties.

(** The status-only callback on a BUSY notification of the mainline
    header whose first address is NULL: the stored status is -ETIMEDOUT as
    an unsigned int. *)
Lemma fcs_vab_callback_status_witness :
  exists priv',
    @fcs_vab_callback stratix10_header probed_priv
      {| cb_status := BIT 4; kaddr1 := None; kaddr2 := None;
         kaddr3 := None |}
    = Some priv'
    /\ status priv' = 4294967186
    /\ kbuf priv' = None /\ size priv' = 0
    /\ completion priv' = 1%nat.
Proof.
  destruct (@fcs_vab_callback_status stratix10_header probed_priv
              {| cb_status := BIT 4; kaddr1 := None; kaddr2 := None;
                 kaddr3 := None |} eq_refl)
    as (_ & Hbusy & _ & _ & Hframe).
  exists (complete (set_status (u32 (- ETIMEDOUT)) probed_priv)).
  split; [exact (Hbusy eq_refl) |].
  destruct (Hframe (u32 (- ETIMEDOUT)))
    as (Hs & Hk & Hz & _ & _ & _ & Hc).
  split; [exact Hs |]. split; [exact Hk |].
  split; [exact Hz | exact Hc].
Defined.

(** The identifier callback on an OK notification of the mainline header. *)
Lemma fcs_chipid_callback_shape_witness :
  exists priv',
    @fcs_chipid_callback stratix10_header probed_priv (notify (BIT 0) 32)
    = Some priv'
    /\ status priv' = 0 /\ cid_low priv' = 11 /\ cid_high priv' = 32
    /\ completion priv' = 1%nat.
Proof.
  apply (proj1 (@fcs_chipid_callback_shape stratix10_header probed_priv
                  (notify (BIT 0) 32) eq_refl));
    reflexivity.
Defined.

(** ** What fcs_request_service returns *)

Section MoreServiceProperties.
Context {hdr : svc_header}.
Variable e : env.

(** X3.  A call of fcs_request_service made with the mutex free sends
    exactly one message and allocates nothing.  When it returns, the value
    is 0, -EINVAL or -ETIMEDOUT: -EINVAL exactly when the channel refused
    the message, -ETIMEDOUT exactly when the message was accepted and no
    notification came in time.  On both failures the status, the result
    pointer and the length in [priv] are what they were before the call:
    the record of the previous request is not reset. *)
Theorem fcs_request_service_outcomes (msg : stratix10_svc_client_msg)
    (timeout ret : Z) (w w' : world) :
  lock (w_priv w) = false ->
  fcs_request_service e msg timeout w = Next ret w' ->
  w_sends w' = S (w_sends w) /\ w_allocs w' = w_allocs w
  /\ (ret = 0 \/ ret = - EINVAL \/ ret = - ETIMEDOUT)
  /\ (ret = - EINVAL <-> send_ret (service e (w_sends w)) <> 0)
  /\ (ret = - ETIMEDOUT <->
      send_ret (service e (w_sends w)) = 0
      /\ notification (service e (w_sends w)) = None)
  /\ (ret <> 0 ->
      status (w_priv w') = status (w_priv w)
      /\ kbuf (w_priv w') = kbuf (w_priv w)
      /\ size (w_priv w') = size (w_priv w)).
Proof.
  destruct w as [[pcb pdone plock pst pkbuf psize plo phi] wt wa ws wi].
  cbn [w_priv lock w_sends w_allocs status kbuf size]. intros ->.
  run_paths; intros H; try discriminate H; injection H as <- <-;
    cbn [w_priv w_sends w_allocs w_inflight status kbuf size] in *;
    reflect_tests;
    repeat split; intros;
    repeat match goal with
           | H : _ /\ _ |- _ => destruct H
           end;
    try (right; left; reflexivity);
    try (right; right; reflexivity);
    try (left; reflexivity);
    try reflexivity; try assumption;
    try discriminate; try congruence; try contradiction.
Qed.

End MoreServiceProperties.

(** A message the channel accepts and never answers, on a probed device:
    the call returns -ETIMEDOUT and the status is still INVALID_STATUS. *)
Lemma fcs_request_service_outcomes_witness :
  exists w',
    @fcs_request_service stratix10_header
      (with_service (fun _ => {| send_ret := 0; notification := None |})
                    env_ok)
      zeroed_msg 2000 (initial_world probed_priv) = Next (- ETIMEDOUT) w'
    /\ w_sends w' = 1%nat
    /\ status (w_priv w') = INVALID_STATUS.
Proof.
  eexists. split; [vm_compute; reflexivity |].
  destruct (@fcs_request_service_outcomes stratix10_header
              (with_service
                 (fun _ => {| send_ret := 0; notification := None |}) env_ok)
              zeroed_msg 2000 (- ETIMEDOUT) (initial_world probed_priv) _
              eq_refl eq_refl)
    as (Hs & _ & _ & _ & _ & Hkeep).
  split; [exact Hs |].
  apply Hkeep. discriminate.
Defined.

(** ** Probe and remove *)

(** X17.  fcs_driver_probe on an unbound device returns 0 exactly when the
    allocation, the channel request and misc_register all succeed; the
    device then holds one channel, is registered, and its driver data is
    the initial record (status INVALID_STATUS, no result, identifier
    INVALID_CID, mutex free, no callback).  A following fcs_driver_remove
    returns 0, releases the channel and removes the registration. *)
Theorem probe_then_remove (pe : probe_env) (ret : Z)
    (pdev : platform_device) :
  fcs_driver_probe pe unbound_device = (ret, pdev) ->
  (ret = 0 <->
   probe_kzalloc pe = true /\ IS_ERR (channel_ptr pe) = false
   /\ misc_register_ret pe = 0)
  /\ (ret = 0 ->
      drvdata pdev = Some probed_priv
      /\ channels_held pdev = 1%nat /\ misc_registered pdev = true
      /\ exists pdev',
           fcs_driver_remove pdev = Some (0, pdev')
           /\ channels_held pdev' = 0%nat
           /\ misc_registered pdev' = false).
Proof.
  unfold fcs_driver_probe, unbound_device.
  destruct (probe_kzalloc pe); cbn [negb].
  - destruct (IS_ERR (channel_ptr pe)) eqn:Hc.
    + intros [= <- <-].
      assert (Hnz : channel_ptr pe <> 0)
        by (unfold IS_ERR in Hc; apply andb_prop in Hc;
            destruct Hc as [_ Hc]; apply Z.ltb_lt in Hc; lia).
      split; [split; [intro H; congruence | intros (_ & H & _); discriminate H]
             | intro H; congruence].
    + destruct (Z.eqb_spec (misc_register_ret pe) 0) as [Hm | Hm];
        cbn [negb]; intros [= <- <-].
      * split; [split; auto |]. intros _.
        repeat split. eexists. repeat split.
      * split; [split; [intro H; congruence | intros (_ & _ & H); congruence]
               | intro H; congruence].
  - intros [= <- <-].
    split; [split; [intro H; discriminate H
                   | intros (H & _); discriminate H]
           | intro H; discriminate H].
Qed.

(** X18.  A probe that fails does not register the device, but when the
    failure is that of misc_register the channel it requested is still
    held on return: the function has no call of stratix10_svc_free_channel.
    The earlier failures (allocation, channel request) leave the device as
    it was. *)
Theorem probe_failure_state (pe : probe_env) (ret : Z)
    (pdev : platform_device) :
  fcs_driver_probe pe unbound_device = (ret, pdev) ->
  ret <> 0 ->
  misc_registered pdev = false
  /\ (probe_kzalloc pe = false -> ret = - ENOMEM /\ pdev = unbound_device)
  /\ (probe_kzalloc pe = true -> IS_ERR (channel_ptr pe) = true ->
      ret = channel_ptr pe /\ - MAX_ERRNO <= ret < 0
      /\ pdev = unbound_device)
  /\ (probe_kzalloc pe = true -> IS_ERR (channel_ptr pe) = false ->
      ret = misc_register_ret pe /\ channels_held pdev = 1%nat).
Proof.
  unfold fcs_driver_probe, unbound_device.
  destruct (probe_kzalloc pe); cbn [negb].
  - destruct (IS_ERR (channel_ptr pe)) eqn:Hc.
    + intros [= <- <-] _.
      unfold IS_ERR in Hc. apply andb_prop in Hc. destruct Hc as [H1 H2].
      apply Z.leb_le in H1. apply Z.ltb_lt in H2.
      repeat split; intros; try discriminate; auto.
    + destruct (Z.eqb_spec (misc_register_ret pe) 0) as [Hm | Hm];
        cbn [negb]; intros [= <- <-] Hret; [contradiction |].
      repeat split; intros; try discriminate; auto.
  - intros [= <- <-] _. repeat split; intros; try discriminate; auto.
Qed.

(** A probe in which everything succeeds, then a remove. *)
Lemma probe_then_remove_witness :
  drvdata (snd (fcs_driver_probe sample_probe unbound_device))
  = Some probed_priv
  /\ exists pdev',
       fcs_driver_remove (snd (fcs_driver_probe sample_probe unbound_device))
       = Some (0, pdev')
       /\ channels_held pdev' = 0%nat /\ misc_registered pdev' = false.
Proof.
  destruct (probe_then_remove sample_probe 0
              (snd (fcs_driver_probe sample_probe unbound_device)) eq_refl)
    as [_ H].
  destruct (H eq_refl) as (Hd & _ & _ & Hrm).
  split; [exact Hd | exact Hrm].
Defined.

(** A probe in which misc_register answers -EBUSY (-16). *)
Lemma probe_failure_state_witness :
  fst (fcs_driver_probe sample_probe_misc_busy unbound_device) = -16
  /\ misc_registered
       (snd (fcs_driver_probe sample_probe_misc_busy unbound_device)) = false
  /\ channels_held
       (snd (fcs_driver_probe sample_probe_misc_busy unbound_device)) = 1%nat.
Proof.
  destruct (probe_failure_state sample_probe_misc_busy (-16)
              (snd (fcs_driver_probe sample_probe_misc_busy unbound_device))
              eq_refl)
    as (Hm & _ & _ & Hc).
  - discriminate.
  - split; [reflexivity |]. split; [exact Hm |].
    exact (proj2 (Hc eq_refl eq_refl)).
Defined.

(** ** Every ioctl *)

Section EveryIoctl.
Context {hdr : svc_header}.

(** X4.  Whenever fcs_ioctl, called with the mutex free, returns a value
    other than -EFAULT and -ENOMEM (that is 0, or the -EINVAL or
    -ETIMEDOUT of fcs_request_service), every shared buffer it allocated has
    been freed exactly once; and whenever it returns 0 the mutex is free
    again. *)
Theorem ioctl_success_is_clean (e : env) (cmd : ioctl_cmd)
    (p : intel_fcs_priv) (r : Z) (w : world) :
  lock p = false ->
  returned (run_ioctl e cmd p) = Some (r, w) ->
  (r <> - EFAULT -> r <> - ENOMEM -> balanced (w_trace w) = true)
  /\ (r = 0 -> lock (w_priv w) = false).
Proof.
  destruct p as [pcb pdone plock pst pkbuf psize plo phi].
  cbn [lock]. intros ->.
  destruct cmd; elim_returned r w C; exec_paths;
    subst C; cbv beta; try exact I;
    simpl_state;
    (split;
     [ intros H1 H2;
       first [ lazy; reflexivity
             | exfalso; apply H1; reflexivity
             | exfalso; apply H2; reflexivity ]
     | intros H1; first [reflexivity | discriminate H1] ]).
Qed.

(** X5.  Whatever the environment answers and however the call ends,
    fcs_ioctl asks the pool for at most three buffers, sends at most two
    messages, never frees a buffer it has not allocated, and copies the
    structure back to the caller at most once. *)
Theorem ioctl_resource_discipline (e : env) (cmd : ioctl_cmd)
    (p : intel_fcs_priv) :
  (length (alloc_sizes (w_trace (world_of (run_ioctl e cmd p)))) <= 3)%nat
  /\ (length (sent (w_trace (world_of (run_ioctl e cmd p)))) <= 2)%nat
  /\ frees_known [] (w_trace (world_of (run_ioctl e cmd p))) = true
  /\ (count (fun ev => match ev with EvCopyBack _ _ => true | _ => false end)
            (w_trace (world_of (run_ioctl e cmd p))) <= 1)%nat.
Proof.
  destruct cmd; hide_run C; exec_paths; subst C; cbv beta;
    simpl_state;
    (split; [cbn; lia | split; [cbn; lia | split; [reflexivity | cbn; lia]]]).
Qed.

End EveryIoctl.

(** A decryption in which everything succeeds: three buffers allocated,
    each freed once, the mutex free at the end. *)
Lemma ioctl_success_is_clean_witness :
  exists w,
    returned (@run_ioctl stratix10_header env_ok INTEL_FCS_DEV_DATA_DECRYPTION
                probed_priv) = Some (0, w)
    /\ length (allocated (w_trace w)) = 3%nat
    /\ balanced (w_trace w) = true
    /\ lock (w_priv w) = false.
Proof.
  eexists.
  destruct (@ioctl_success_is_clean stratix10_header env_ok
              INTEL_FCS_DEV_DATA_DECRYPTION probed_priv 0 _ eq_refl
              ltac:(vm_compute; reflexivity))
    as [Hb Hl].
  split; [vm_compute; reflexivity |].
  split; [vm_compute; reflexivity |].
  split; [apply Hb; discriminate | exact (Hl eq_refl)].
Defined.

Section ReturnValues.
Context {hdr : svc_header}.


End ReturnValues.


Section StaleStatus.
Context {hdr : svc_header}.

(** X7.  When fcs_ioctl returns the -EINVAL or -ETIMEDOUT of
    fcs_request_service, the structure copied back to the caller does not
    describe the failed request.  After one message, its status is the
    status the device held before the call (INVALID_STATUS on a device just
    probed, the status of the previous request otherwise), since no callback
    ran.  After two messages (the poll failed), the status is the 0 left by
    the first phase, except for the certificate send, which reports the
    first word behind the result pointer of an earlier request. *)
Theorem failed_request_reports_stale_status (e : env) (cmd : ioctl_cmd)
    (p : intel_fcs_priv) (r : Z) (w : world) :
  returned (run_ioctl e cmd p) = Some (r, w) ->
  r = - EINVAL \/ r = - ETIMEDOUT ->
  exists d,
    copied_back (w_trace w) = Some d
    /\ (length (sent (w_trace w)) = 1%nat ->
        d f_status = status p /\ kbuf (w_priv w) = kbuf p)
    /\ (length (sent (w_trace w)) = 2%nat ->
        kbuf (w_priv w) = kbuf p
        /\ (cmd <> INTEL_FCS_DEV_SEND_CERTIFICATE -> d f_status = 0)
        /\ (cmd = INTEL_FCS_DEV_SEND_CERTIFICATE ->
            match kbuf p with
            | Some ws => load_u32 (kbuf p) = Some (d f_c_request_c_status)
            | None => d f_c_request_c_status = INVALID_STATUS
            end)).
Proof.
  destruct p as [pcb pdone plock pst pkbuf psize plo phi].
  intros H Hr. revert H Hr.
  destruct cmd; elim_returned r w C; exec_paths;
    subst C; cbv beta; try exact I;
    simpl_state;
    (intros [Hr | Hr]; try discriminate Hr).
  all: eexists; (split; [reflexivity |]).
  all: cbn [length sent].
  all: (split; intro Hn; try discriminate Hn).
  all: reflect_tests; use_frames; rewrite ?set_same.
  all: try (split; reflexivity).
  all: split; [reflexivity |].
  all: (split; [intro Hc; first [reflexivity | exfalso; apply Hc; reflexivity]
               | intro Hc; try discriminate Hc]).
  all: rewrite ?set_same; cbn [load_u32]; try reflexivity.
  all: assumption.
Qed.

End StaleStatus.

(** A random-number request the co-processor never answers, on a device
    just probed: the caller reads -ETIMEDOUT and the status
    INVALID_STATUS. *)
Lemma failed_request_reports_stale_status_witness :
  exists w d,
    returned (@run_ioctl stratix10_header
                (with_service
                   (fun _ => {| send_ret := 0; notification := None |})
                   env_ok)
                INTEL_FCS_DEV_RANDOM_NUMBER_GEN probed_priv)
    = Some (- ETIMEDOUT, w)
    /\ copied_back (w_trace w) = Some d
    /\ d f_status = INVALID_STATUS.
Proof.
  eexists.
  destruct (@failed_request_reports_stale_status stratix10_header
              (with_service
                 (fun _ => {| send_ret := 0; notification := None |})
                 env_ok)
              INTEL_FCS_DEV_RANDOM_NUMBER_GEN probed_priv (- ETIMEDOUT) _
              ltac:(vm_compute; reflexivity) (or_intror eq_refl))
    as (d & Hd & H1 & _).
  exists d. split; [vm_compute; reflexivity |].
  split; [exact Hd |]. exact (proj1 (H1 eq_refl)).
Defined.

Section Messages.
Context {hdr : svc_header}.

(** X8.  Every message fcs_ioctl sends names buffers that are allocated
    and not yet freed at the time of the send, and announces for each a
    length that does not exceed the size the buffer was allocated with; a
    message without input buffer announces the length 0. *)
Theorem messages_fit_their_buffers (e : env) (cmd : ioctl_cmd)
    (p : intel_fcs_priv) (m : stratix10_svc_client_msg) :
  In m (messages (w_trace (world_of (run_ioctl e cmd p)))) ->
  sends_live [] (w_trace (world_of (run_ioctl e cmd p))) = true
  /\ fits (w_trace (world_of (run_ioctl e cmd p)))
          (payload m) (payload_length m)
  /\ fits (w_trace (world_of (run_ioctl e cmd p)))
          (payload_output m) (payload_length_output m)
  /\ (payload m = None -> payload_length m = 0).
Proof.
  destruct p as [pcb pdone plock pst pkbuf psize plo phi].
  destruct cmd; hide_run C; exec_paths; subst C; cbv beta;
    simpl_state; cbn [messages In];
    intros Hm;
    repeat match goal with
           | H : _ \/ _ |- _ => destruct H
           | H : False |- _ => destruct H
           end;
    subst m; cbn [payload payload_length payload_output
                  payload_length_output set_payload set_payload_length
                  set_payload_output set_payload_length_output set_command
                  set_arg0 set_arg1 set_arg2 zeroed_msg fits].
  all: split; [reflexivity |].
  all: reflect_tests; unfold_bounds.
  all: repeat match goal with
              | |- _ /\ _ => split
              | |- True => exact I
              | |- Some _ = None -> _ => intro Hn; discriminate Hn
              | |- None = None -> _ => intros _; reflexivity
              | |- exists sz, _ =>
                  eexists;
                  split;
                    [ cbn [In];
                      first [ left; reflexivity
                            | right; left; reflexivity
                            | right; right; left; reflexivity ]
                    | lia ]
              end.
Qed.

End Messages.

(** The sub-key request of a caller who announces 128 bytes of command
    data: the message names the first buffer, of 4096 bytes, with the
    length 132. *)
Lemma messages_fit_their_buffers_witness :
  sends_live []
    (w_trace (world_of (@run_ioctl stratix10_header env_ok
                          INTEL_FCS_DEV_ATTESTATION_SUBKEY probed_priv)))
  = true
  /\ fits (w_trace (world_of (@run_ioctl stratix10_header env_ok
                                INTEL_FCS_DEV_ATTESTATION_SUBKEY
                                probed_priv)))
          (Some 0%nat) 132.
Proof.
  destruct (@messages_fit_their_buffers stratix10_header env_ok
              INTEL_FCS_DEV_ATTESTATION_SUBKEY probed_priv
              (mk_msg (Some 0%nat) 132 (Some 1%nat) 820
                      COMMAND_FCS_ATTESTATION_SUBKEY 0 0 0))
    as (Hl & Hf & _).
  - vm_compute. left. reflexivity.
  - split; [exact Hl | exact Hf].
Defined.

Section Arguments.
Context {hdr : svc_header}.

(** X9.  The argument words of the messages.  The session teardown sends
    the caller's session identifier, and only 1 or 0xffffffff ever reach the
    channel; the two certificate commands send the low four bits of the
    caller's request word; the counter command sends type, value and test
    word; every other message, the polls included, has its three argument
    words 0. *)
Theorem message_arguments (e : env) (cmd : ioctl_cmd) (p : intel_fcs_priv)
    (d : intel_fcs_dev_ioctl) (m : stratix10_svc_client_msg) :
  user_arg e = Some d ->
  In m (messages (w_trace (world_of (run_ioctl e cmd p)))) ->
  match cmd with
  | INTEL_FCS_DEV_PSGSIGMA_TEARDOWN =>
      command m = COMMAND_FCS_PSGSIGMA_TEARDOWN
      /\ arg0 m = d f_tdown_sid
      /\ (arg0 m = 1 \/ arg0 m = 0xffffffff)
      /\ arg1 m = 0 /\ arg2 m = 0
  | INTEL_FCS_DEV_ATTESTATION_GET_CERTIFICATE =>
      arg0 m = d f_certificate_c_request mod 16
      /\ arg1 m = 0 /\ arg2 m = 0
  | INTEL_FCS_DEV_ATTESTATION_CERTIFICATE_RELOAD =>
      arg0 m = d f_c_reload_c_request mod 16
      /\ arg1 m = 0 /\ arg2 m = 0
  | INTEL_FCS_DEV_COUNTER_SET_PREAUTHORIZED =>
      arg0 m = d f_i_request_counter_type
      /\ arg1 m = d f_i_request_counter_value
      /\ arg2 m = d f_i_request_test_word
  | _ => arg0 m = 0 /\ arg1 m = 0 /\ arg2 m = 0
  end.
Proof.
  destruct p as [pcb pdone plock pst pkbuf psize plo phi].
  intros Hd.
  assert (Hland : forall x, Z.land x 15 = x mod 16)
    by (intro x; change 15 with (Z.ones 4); rewrite Z.land_ones by lia;
        reflexivity).
  destruct cmd; hide_run C; exec_paths; subst C; cbv beta;
    simpl_state; cbn [messages In];
    intros Hm;
    repeat match goal with
           | H : _ \/ _ |- _ => destruct H
           | H : False |- _ => destruct H
           end;
    subst m;
    cbn [arg0 arg1 arg2 command set_payload set_payload_length
         set_payload_output set_payload_length_output set_command
         set_arg0 set_arg1 set_arg2 zeroed_msg];
    try (rewrite Hd in *);
    repeat match goal with
           | H : Some _ = Some _ |- _ => injection H as H; subst
           end;
    rewrite ?Hland.
  all: reflect_tests;
       unfold SIGMA_SESSION_ID_ONE, SIGMA_UNKNOWN_SESSION in *.
  all: repeat split; try reflexivity.
  all: try (left; assumption); try (right; assumption).
Qed.

(** X10.  A call that ends without having sent a message has left the
    device record as it was and has copied nothing back; for a supported
    command it returns -ENOMEM or -EFAULT.  Conversely -ENOMEM is only
    returned before anything has been sent. *)
Theorem early_exit_leaves_device_untouched (e : env) (cmd : ioctl_cmd)
    (p : intel_fcs_priv) (r : Z) (w : world) :
  returned (run_ioctl e cmd p) = Some (r, w) ->
  (messages (w_trace w) = [] ->
   w_priv w = p /\ copied_back (w_trace w) = None
   /\ (In cmd supported_cmds -> r = - ENOMEM \/ r = - EFAULT))
  /\ (r = - ENOMEM -> messages (w_trace w) = []).
Proof.
  destruct p as [pcb pdone plock pst pkbuf psize plo phi].
  destruct cmd; elim_returned r w C; exec_paths;
    subst C; cbv beta; try exact I;
    simpl_state; cbn [messages];
    (split;
     [ intro Hm;
       first [ discriminate Hm
             | split; [reflexivity |]; split; [reflexivity |];
               intro Hin;
               first [ left; reflexivity | right; reflexivity
                     | exfalso; cbn in Hin; intuition discriminate ] ]
     | intro Hr; first [reflexivity | discriminate Hr] ]).
Qed.

End Arguments.

(** A certificate request with the request word 0x1234: the message
    carries 4. *)
Lemma message_arguments_witness :
  arg0 (mk_msg None 0 (Some 0%nat) 4096
               COMMAND_FCS_ATTESTATION_CERTIFICATE 4 0 0)
  = 0x1234 mod 16.
Proof.
  destruct (@message_arguments stratix10_header
              (with_user_arg (set f_certificate_c_request 0x1234 sample_arg)
                             env_ok)
              INTEL_FCS_DEV_ATTESTATION_GET_CERTIFICATE probed_priv
              (set f_certificate_c_request 0x1234 sample_arg)
              (mk_msg None 0 (Some 0%nat) 4096
                      COMMAND_FCS_ATTESTATION_CERTIFICATE 4 0 0)
              eq_refl)
    as (H & _).
  - vm_compute. left. reflexivity.
  - exact H.
Defined.

(** A sub-key request whose second buffer cannot be allocated: -ENOMEM,
    no message, the device record untouched. *)
Lemma early_exit_leaves_device_untouched_witness :
  exists w,
    returned (@run_ioctl stratix10_header env_second_alloc_fails
                INTEL_FCS_DEV_ATTESTATION_SUBKEY probed_priv)
    = Some (- ENOMEM, w)
    /\ messages (w_trace w) = []
    /\ w_priv w = probed_priv.
Proof.
  eexists.
  destruct (@early_exit_leaves_device_untouched stratix10_header
              env_second_alloc_fails INTEL_FCS_DEV_ATTESTATION_SUBKEY
              probed_priv (- ENOMEM) _ ltac:(vm_compute; reflexivity))
    as [Hno Hm].
  split; [vm_compute; reflexivity |].
  split; [exact (Hm eq_refl) |].
  exact (proj1 (Hno (Hm eq_refl))).
Defined.

Section Wedge.
Context {hdr : svc_header}.

(** On a device whose mutex is held, a supported command either fails
    before it reaches the channel or blocks for ever. *)
Lemma locked_device_runs (e : env) (cmd : ioctl_cmd) (p : intel_fcs_priv)
    (r : Z) (w : world) :
  lock p = true ->
  In cmd supported_cmds ->
  returned (run_ioctl e cmd p) = Some (r, w) ->
  (r = - ENOMEM \/ r = - EFAULT) /\ messages (w_trace w) = [].
Proof.
  destruct p as [pcb pdone plock pst pkbuf psize plo phi].
  cbn [lock]. intros -> Hin.
  destruct cmd; elim_returned r w C; exec_paths;
    subst C; cbv beta; try exact I;
    simpl_state; cbn [messages];
    first [ split; [left; reflexivity | reflexivity]
          | split; [right; reflexivity | reflexivity]
          | exfalso; cbn in Hin; intuition discriminate ].
Qed.

(** X11.  When fcs_ioctl, called with the mutex free, returns, the mutex
    is held exactly when the channel refused the last message sent.  The
    call then did not return 0, and from then on every supported command,
    whatever the environment answers, fails with -ENOMEM or -EFAULT without
    sending a message, or never returns: nothing in the driver releases the
    mutex again. *)
Theorem refused_send_wedges_device (e : env) (cmd : ioctl_cmd)
    (p : intel_fcs_priv) (r : Z) (w : world) :
  lock p = false ->
  returned (run_ioctl e cmd p) = Some (r, w) ->
  (lock (w_priv w) = true <->
   exists n, w_sends w = S n /\ send_ret (service e n) <> 0)
  /\ (lock (w_priv w) = true ->
      r <> 0
      /\ forall e' cmd' r' w',
           In cmd' supported_cmds ->
           returned (run_ioctl e' cmd' (w_priv w)) = Some (r', w') ->
           (r' = - ENOMEM \/ r' = - EFAULT) /\ messages (w_trace w') = []).
Proof.
  intros Hl H.
  assert (Hiff : (lock (w_priv w) = true <->
                  exists n, w_sends w = S n /\ send_ret (service e n) <> 0)
                 /\ (lock (w_priv w) = true -> r <> 0)).
  { revert Hl H.
    destruct p as [pcb pdone plock pst pkbuf psize plo phi].
    cbn [lock]. intros ->.
    destruct cmd; elim_returned r w C; exec_paths;
      subst C; cbv beta; try exact I;
      simpl_state; reflect_tests;
      (split;
       [ split;
         [ intro Hk;
           first [ discriminate Hk
                 | eexists; split; [reflexivity | assumption] ]
         | intros (n & Hn & Hs);
           first [ reflexivity
                 | discriminate Hn
                 | exfalso; injection Hn as <-; contradiction ] ]
       | intro Hk; first [discriminate Hk | discriminate] ]). }
  destruct Hiff as [Hiff Hr].
  split; [exact Hiff |].
  intro Hk. split; [exact (Hr Hk) |].
  intros e' cmd' r' w' Hin Hrun.
  exact (locked_device_runs e' cmd' (w_priv w) r' w' Hk Hin Hrun).
Qed.


End Wedge.

(** The channel refuses the message of a random-number request: the
    mutex stays held, and a chip identifier request that follows, in an
    environment where everything succeeds, cannot succeed. *)
Lemma refused_send_wedges_device_witness :
  exists w,
    returned (@run_ioctl stratix10_header
                (with_service
                   (fun _ => {| send_ret := -16; notification := None |})
                   env_ok)
                INTEL_FCS_DEV_RANDOM_NUMBER_GEN probed_priv)
    = Some (- EINVAL, w)
    /\ lock (w_priv w) = true
    /\ forall r' w',
         returned (@run_ioctl stratix10_header env_ok INTEL_FCS_DEV_CHIP_ID
                     (w_priv w)) = Some (r', w') ->
         r' = - ENOMEM \/ r' = - EFAULT.
Proof.
  eexists.
  destruct (@refused_send_wedges_device stratix10_header
              (with_service
                 (fun _ => {| send_ret := -16; notification := None |})
                 env_ok)
              INTEL_FCS_DEV_RANDOM_NUMBER_GEN probed_priv (- EINVAL) _
              eq_refl ltac:(vm_compute; reflexivity))
    as [Hiff Hafter].
  split; [vm_compute; reflexivity |].
  assert (Hk : lock (w_priv
                 (world_of
                    (@run_ioctl stratix10_header
                       (with_service
                          (fun _ => {| send_ret := -16;
                                       notification := None |})
                          env_ok)
                       INTEL_FCS_DEV_RANDOM_NUMBER_GEN probed_priv)))
               = true).
  { apply Hiff. exists 0%nat.
    split; [reflexivity | vm_compute; discriminate]. }
  split; [exact Hk |].
  intros r' w' Hrun.
  refine (proj1 (proj2 (Hafter Hk) env_ok INTEL_FCS_DEV_CHIP_ID r' w' _ Hrun)).
  vm_compute. tauto.
Defined.


(** ** Word results *)

Lemma set_other (f g : field) (v : Z) (d : intel_fcs_dev_ioctl) :
  field_eqb g f = false -> set f v d g = d g.
Proof. unfold set. intros ->. reflexivity. Qed.

Lemma set_words_before (f : nat -> field) (ws : list Z) :
  (forall i j, field_eqb (f i) (f j) = Nat.eqb i j) ->
  forall i0 d j, (j < i0)%nat -> set_words f i0 ws d (f j) = d (f j).
Proof.
  intro Hf. induction ws as [| w ws IH]; intros i0 d j Hj; cbn [set_words].
  - reflexivity.
  - rewrite IH by lia. apply set_other. rewrite Hf.
    apply Nat.eqb_neq. lia.
Qed.

Lemma set_words_nth (f : nat -> field) (ws : list Z) :
  (forall i j, field_eqb (f i) (f j) = Nat.eqb i j) ->
  forall i0 d k, (k < length ws)%nat ->
    set_words f i0 ws d (f (i0 + k)%nat) = nth k ws 0.
Proof.
  intro Hf. induction ws as [| w ws IH]; intros i0 d k Hk;
    cbn [length] in Hk; [lia |].
  cbn [set_words]. destruct k as [| k].
  - rewrite Nat.add_0_r, set_words_before by (auto; lia).
    apply set_same.
  - replace (i0 + S k)%nat with (S i0 + k)%nat by lia.
    rewrite IH by lia. reflexivity.
Qed.

Lemma nth_firstn_lt (n k : nat) (ws : list Z) :
  (k < n)%nat -> nth k (firstn n ws) 0 = nth k ws 0.
Proof.
  revert k ws. induction n as [| n IH]; intros k ws Hk; [lia |].
  destruct ws as [| w ws]; [destruct k; reflexivity |].
  destruct k as [| k]; [reflexivity |].
  cbn [firstn nth]. apply IH. lia.
Qed.

Section WordResults.
Context {hdr : svc_header}.

(** X13.  A random-number request answered OK: the call returns 0, the
    caller's status is 0 and the eight words rndm[0..7] are the first eight
    words of the result buffer, whatever length the co-processor reported;
    the one buffer is freed once. *)
Theorem random_number_words (e : env) (p : intel_fcs_priv)
    (d0 : intel_fcs_dev_ioctl) (s : stratix10_svc_cb_data)
    (ws : list Z) (sz : Z) :
  kzalloc_data e = true -> kzalloc_msg e = true ->
  user_arg e = Some d0 ->
  alloc_ok e 0 = true ->
  lock p = false ->
  send_ret (service e 0) = 0 ->
  notification (service e 0) = Some s ->
  cb_status s = BIT SVC_STATUS_OK ->
  kaddr2 s = Some ws -> (8 <= length ws)%nat ->
  load_u32 (kaddr3 s) = Some sz ->
  copy_back_ok e = true ->
  exists w d,
    returned (run_ioctl e INTEL_FCS_DEV_RANDOM_NUMBER_GEN p) = Some (0, w)
    /\ copied_back (w_trace w) = Some d
    /\ d f_status = 0
    /\ (forall i, (i < 8)%nat -> d (f_rn_gen_rndm i) = nth i ws 0)
    /\ balanced (w_trace w) = true.
Proof.
  destruct p as [pcb pdone plock pst pkbuf psize plo phi].
  cbn [lock].
  intros Hd Hm Ha Hal -> Hs Hn Hst Hk Hlen Hsz Hc.
  exec_driver. rewrite Hd, Hm. exec_driver. rewrite Ha. exec_driver.
  rewrite Hal. exec_driver. rewrite Hs. exec_driver.
  rewrite Hn. exec_driver.
  unfold fcs_data_callback.
  rewrite Hst, Z.eqb_refl. cbn [orb]. rewrite Hsz. cbn [opt_bind].
  exec_driver. cbv [complete]. exec_driver. rewrite Hk. exec_driver.
  unfold load_words.
  apply Nat.leb_le in Hlen. rewrite Hlen. exec_driver.
  rewrite Hc. exec_driver.
  eexists _, _. split; [reflexivity |].
  simpl_state. cbn [copied_back]. split; [reflexivity |].
  apply Nat.leb_le in Hlen.
  split; [apply set_same |].
  split; [| lazy; reflexivity].
  intros i Hi. rewrite set_other by reflexivity.
  assert (Hw : (i < length (firstn 8 ws))%nat)
    by (rewrite length_firstn; lia).
  apply (set_words_nth f_rn_gen_rndm (firstn 8 ws)
           (fun a b => eq_refl) 0%nat d0 i) in Hw.
  cbn [Nat.add] in Hw. rewrite Hw.
  apply nth_firstn_lt. exact Hi.
Qed.


End WordResults.

(** A random-number request answered with the twelve words 11..22: the
    caller reads 11..18. *)
Lemma random_number_words_witness :
  exists w d,
    returned (@run_ioctl stratix10_header env_ok
                INTEL_FCS_DEV_RANDOM_NUMBER_GEN probed_priv) = Some (0, w)
    /\ copied_back (w_trace w) = Some d
    /\ d f_status = 0
    /\ d (f_rn_gen_rndm 0) = 11 /\ d (f_rn_gen_rndm 7) = 18.
Proof.
  destruct (@random_number_words stratix10_header env_ok probed_priv
              sample_arg (notify (BIT 0) 32)
              [11; 12; 13; 14; 15; 16; 17; 18; 19; 20; 21; 22] 32
              eq_refl eq_refl eq_refl eq_refl eq_refl eq_refl eq_refl
              eq_refl eq_refl ltac:(cbn; lia) eq_refl eq_refl)
    as (w & d & Hr & Hd & Hs & Hw & _).
  exists w, d. split; [exact Hr |]. split; [exact Hd |].
  split; [exact Hs |].
  split; [exact (Hw 0%nat ltac:(lia)) | exact (Hw 7%nat ltac:(lia))].
Defined.


(** ** Result lengths *)

Section ResultLengths.
Context {hdr : svc_header}.

(** X15.  The provision data request frees its one buffer exactly once on
    every path that returns.  When the request is answered OK with a result
    buffer, the number of bytes copied to the caller's address and the size
    written back are the length the co-processor reported: the driver
    compares it neither with the size the caller announced nor with the
    size of the buffer allocated from it. *)
Theorem provision_data_result (e : env) (p : intel_fcs_priv) :
  (forall r w,
     returned (run_ioctl e INTEL_FCS_DEV_GET_PROVISION_DATA p) = Some (r, w) ->
     balanced (w_trace w) = true)
  /\ (forall d0 s ws sz,
        kzalloc_data e = true -> kzalloc_msg e = true ->
        user_arg e = Some d0 ->
        alloc_ok e 0 = true ->
        lock p = false ->
        send_ret (service e 0) = 0 ->
        notification (service e 0) = Some s ->
        cb_status s = BIT SVC_STATUS_OK ->
        kaddr2 s = Some ws ->
        load_u32 (kaddr3 s) = Some sz ->
        payload_out_ok e = true ->
        copy_back_ok e = true ->
        exists w d,
          returned (run_ioctl e INTEL_FCS_DEV_GET_PROVISION_DATA p)
          = Some (0, w)
          /\ alloc_sizes (w_trace w) = [d0 f_gp_data_size]
          /\ In (EvCopyOut (d0 f_gp_data_addr) sz true) (w_trace w)
          /\ copied_back (w_trace w) = Some d
          /\ d f_status = 0 /\ d f_gp_data_size = sz).
Proof.
  destruct p as [pcb pdone plock pst pkbuf psize plo phi].
  split.
  - intros r w.
    elim_returned r w C; exec_paths; subst C; cbv beta; try exact I;
      simpl_state; lazy; reflexivity.
  - cbn [lock].
    intros d0 s ws sz Hd Hm Ha Hal -> Hs Hn Hst Hk Hsz Hp Hc.
    exec_driver. rewrite Hd, Hm. exec_driver. rewrite Ha. exec_driver.
    rewrite Hal. exec_driver. rewrite Hs. exec_driver.
    rewrite Hn. exec_driver.
    unfold fcs_data_callback.
    rewrite Hst, Z.eqb_refl. cbn [orb]. rewrite Hsz. cbn [opt_bind].
    exec_driver. cbv [complete]. exec_driver. rewrite Hk. exec_driver.
    rewrite Hp. exec_driver. rewrite Hc. exec_driver.
    eexists _, _. split; [reflexivity |].
    simpl_state. cbn [copied_back alloc_sizes].
    split; [reflexivity |].
    split; [cbn [In]; auto 10 |].
    split; [reflexivity |].
    split; [apply set_same |].
    rewrite set_other by reflexivity. apply set_same.
Qed.

(** X16.  Encryption and decryption, both phases answered OK: the call
    returns 0 with status 0, and the number of bytes copied to the caller's
    destination and written back as dst_size is the first word of the
    poll's result buffer, whatever its value; the three buffers are freed
    once each. *)
Theorem crypt_result_length (e : env) (cmd : ioctl_cmd)
    (p : intel_fcs_priv) (d0 : intel_fcs_dev_ioctl)
    (s1 s2 : stratix10_svc_cb_data) (n sz : Z) (ws : list Z) :
  svc_header_ok hdr = true ->
  kzalloc_data e = true -> kzalloc_msg e = true ->
  user_arg e = Some d0 ->
  match cmd with
  | INTEL_FCS_DEV_DATA_ENCRYPTION =>
      DEC_MIN_SZ <= d0 f_d_src_size <= DEC_MAX_SZ
      /\ ENC_MIN_SZ <= d0 f_d_dst_size <= ENC_MAX_SZ
  | INTEL_FCS_DEV_DATA_DECRYPTION =>
      ENC_MIN_SZ <= d0 f_d_src_size <= ENC_MAX_SZ
      /\ DEC_MIN_SZ <= d0 f_d_dst_size <= DEC_MAX_SZ
  | _ => False
  end ->
  alloc_ok e 0 = true -> alloc_ok e 1 = true -> alloc_ok e 2 = true ->
  user_payload_ok e = true ->
  lock p = false ->
  send_ret (service e 0) = 0 ->
  notification (service e 0) = Some s1 ->
  cb_status s1 = BIT SVC_STATUS_OK ->
  send_ret (service e 1) = 0 ->
  notification (service e 1) = Some s2 ->
  cb_status s2 = BIT SVC_STATUS_OK ->
  kaddr2 s2 = Some (n :: ws) ->
  load_u32 (kaddr3 s2) = Some sz ->
  payload_out_ok e = true ->
  copy_back_ok e = true ->
  exists w d,
    returned (run_ioctl e cmd p) = Some (0, w)
    /\ In (EvCopyOut (d0 f_d_dst) n true) (w_trace w)
    /\ copied_back (w_trace w) = Some d
    /\ d f_status = 0 /\ d f_d_dst_size = n /\ d f_d_dst = d0 f_d_dst
    /\ balanced (w_trace w) = true.
Proof.
  destruct p as [pcb pdone plock pst pkbuf psize plo phi].
  cbn [lock].
  intros hdr_ok Hd Hm Ha Hv H0 H1 H2 Hu -> Hs1 Hn1 Hst1 Hs2 Hn2 Hst2
         Hk Hsz Hp Hc.
  destruct (status_bits_distinct hdr hdr_ok)
    as (_ & _ & _ & Hoe & Hob & Hoi).
  apply Z.eqb_neq in Hoe, Hob, Hoi.
  assert (Hvab : forall q,
            fcs_vab_callback q s1 = Some (complete (set_status 0 q))).
  { intro q. unfold fcs_vab_callback.
    rewrite Hst1, Hoe, Hob, Hoi, Z.eqb_refl. reflexivity. }
  assert (Hdata : forall q,
            fcs_data_callback q s2
            = Some (complete (set_size sz (set_kbuf (Some (n :: ws))
                                             (set_status 0 q))))).
  { intro q. unfold fcs_data_callback.
    rewrite Hst2, Z.eqb_refl. cbn [orb]. rewrite Hsz, Hk. reflexivity. }
  destruct cmd; try contradiction; destruct Hv as [Hv1 Hv2].
  all: exec_driver; rewrite Hd, Hm; exec_driver; rewrite Ha; exec_driver.
  all: repeat match goal with
              | |- context [?a <? ?b] =>
                  replace (a <? b) with false by (symmetry; apply Z.ltb_ge; lia)
              | |- context [?a >? ?b] =>
                  replace (a >? b) with false
                    by (symmetry; rewrite Z.gtb_ltb; apply Z.ltb_ge; lia)
              end.
  all: exec_driver; rewrite H0; exec_driver; rewrite H1; exec_driver;
       rewrite H2; exec_driver; rewrite Hu; exec_driver;
       rewrite Hs1; exec_driver; rewrite Hn1; exec_driver;
       rewrite Hvab; cbv [complete]; exec_driver;
       rewrite Hs2; exec_driver; rewrite Hn2; exec_driver;
       rewrite Hdata; cbv [complete]; exec_driver;
       cbn [load_u32]; exec_driver;
       rewrite Hp; exec_driver; rewrite Hc; exec_driver.
  all: eexists _, _; (split; [reflexivity |]);
       simpl_state; cbn [copied_back];
       (split; [cbn [In]; auto 20 |]);
       (split; [reflexivity |]);
       (split; [apply set_same |]);
       (split; [rewrite set_other by reflexivity; apply set_same |]);
       (split; [rewrite !set_other by reflexivity; reflexivity
               | lazy; reflexivity]).
Qed.

End ResultLengths.

(** A provision data request answered with a length of 5000 bytes by a
    caller who announced 128: 5000 bytes are copied out. *)
Lemma provision_data_result_witness :
  exists w d,
    returned (@run_ioctl stratix10_header env_oversize
                INTEL_FCS_DEV_GET_PROVISION_DATA probed_priv) = Some (0, w)
    /\ alloc_sizes (w_trace w) = [128]
    /\ In (EvCopyOut 128 5000 true) (w_trace w)
    /\ copied_back (w_trace w) = Some d
    /\ d f_gp_data_size = 5000
    /\ balanced (w_trace w) = true.
Proof.
  destruct (@provision_data_result stratix10_header env_oversize probed_priv)
    as [Hbal Hres].
  destruct (Hres sample_arg (notify (BIT 0) 5000)
              [11; 12; 13; 14; 15; 16; 17; 18; 19; 20; 21; 22] 5000
              eq_refl eq_refl eq_refl eq_refl eq_refl eq_refl eq_refl
              eq_refl eq_refl eq_refl eq_refl eq_refl)
    as (w & d & Hr & Ha & Hc & Hd & _ & Hs).
  exists w, d. split; [exact Hr |]. split; [exact Ha |].
  split; [exact Hc |]. split; [exact Hd |]. split; [exact Hs |].
  exact (Hbal 0 w Hr).
Defined.

(** A decryption of 128 bytes whose poll answers with a buffer that
    starts with the word 11: 11 bytes are copied to the caller. *)
Lemma crypt_result_length_witness :
  exists w d,
    returned (@run_ioctl stratix10_header env_ok
                INTEL_FCS_DEV_DATA_DECRYPTION probed_priv) = Some (0, w)
    /\ In (EvCopyOut 128 11 true) (w_trace w)
    /\ copied_back (w_trace w) = Some d
    /\ d f_d_dst_size = 11.
Proof.
  destruct (@crypt_result_length stratix10_header env_ok
              INTEL_FCS_DEV_DATA_DECRYPTION probed_priv sample_arg
              (notify (BIT 0) 32) (notify (BIT 0) 32) 11 32
              [12; 13; 14; 15; 16; 17; 18; 19; 20; 21; 22]
              eq_refl eq_refl eq_refl eq_refl
              ltac:(vm_compute; intuition discriminate)
              eq_refl eq_refl eq_refl eq_refl eq_refl eq_refl eq_refl
              eq_refl eq_refl eq_refl eq_refl eq_refl eq_refl eq_refl
              eq_refl)
    as (w & d & Hr & Hc & Hd & _ & Hs & _).
  exists w, d. split; [exact Hr |]. split; [exact Hc |].
  split; [exact Hd | exact Hs].
Defined.
